(** * Google Cloud SQL log ingestion: subscriber, registry and transformer

    A shallow embedding of [input/system/google_cloudsql/logs.go] of the
    pganalyze collector, and the properties of its three parts:

    - the Pub/Sub adapter ([setupPubSubSubscriber], its message handler and
      its receive loop),
    - the coordinator that starts one adapter per subscription
      ([SetupLogSubscriber]),
    - the stream transformer ([setupLogTransformer]).

    Goroutines are modelled one by one: each is a function from what the
    environment hands it (provider messages, receive outcomes, channel
    events) to the trace of effects it performs, in program order. *)

From Stdlib Require Import ZArith Lia List Ascii String.
From stdpp Require Import base option list strings gmap.

Local Open Scope string_scope.
Local Open Scope list_scope.

(** ** The part of Go's [strings] package the file calls.

    The source passes the one-byte separator ["/"] everywhere; the library
    dispatches such calls to its byte-wise routines, which is what is
    embedded here (the separator is an [ascii]). *)
Module GoStrings.

(** [strings.Count(s, sep)] for a one-byte [sep]. *)
Fixpoint Count (s : string) (sep : ascii) : nat :=
  match s with
  | EmptyString => 0
  | String c s' => (if Ascii.eqb c sep then 1 else 0) + Count s' sep
  end.

(** [strings.Index] followed by the two slices [s[:m]] and [s[m+1:]] that
    [genSplit] takes; [None] is the library's [m < 0]. *)
Fixpoint cut (s : string) (sep : ascii) : option (string * string) :=
  match s with
  | EmptyString => None
  | String c s' =>
      if Ascii.eqb c sep then Some (EmptyString, s')
      else match cut s' sep with
           | Some (before, after) => Some (String c before, after)
           | None => None
           end
  end.

(** [strings.SplitN(s, sep, n)] for [n >= 0]: at most [n] pieces, the last
    one being the unsplit remainder; [n = 0] gives the empty slice. *)
Fixpoint SplitN (s : string) (sep : ascii) (n : nat) : list string :=
  match n with
  | 0 => []
  | S n' =>
      match n' with
      | 0 => [s]
      | S _ =>
          match cut s sep with
          | Some (before, after) => before :: SplitN after sep n'
          | None => [s]
          end
      end
  end.

(** [strings.HasSuffix]:
    [len(s) >= len(suffix) && s[len(s)-len(suffix):] == suffix]. *)
Definition HasSuffix (s suffix : string) : bool :=
  (String.length suffix <=? String.length s)%nat &&
  String.eqb
    (substring (String.length s - String.length suffix)
               (String.length suffix) s)
    suffix.

(** Go's [a[i]] on a slice of strings.  The source indexes [idParts] and
    [parts] only behind a guard on [Count]; [SplitN_four] and [SplitN_two]
    below show the index is then in range, so the default is never
    returned. *)
Definition index (a : list string) (i : nat) : string :=
  nth i a EmptyString.

End GoStrings.

(** ** The part of Go's [time] package the file calls.

    A [Time] is its wall-clock instant: seconds since January 1, year 1,
    00:00:00 UTC and nanoseconds within the second.  The monotonic reading
    that [time.Now] attaches is left out: [Before] only uses it when both
    operands carry one, and a parsed timestamp never does.  Seconds are
    unbounded here; the library saturates at the int64 limits, some 292
    billion years away. *)
Module GoTime.

Record Time : Type := mkTime { sec : Z; nsec : Z }.

Definition Duration : Type := Z.

Definition Nanosecond : Duration := 1%Z.
Definition Second : Duration := (1000000000 * Nanosecond)%Z.
Definition Minute : Duration := (60 * Second)%Z.

(** The zero value [Time{}]. *)
Definition zero : Time := mkTime 0 0.

(** [t.IsZero()]: [t.sec() == 0 && t.nsec() == 0]. *)
Definition IsZero (t : Time) : bool :=
  (sec t =? 0)%Z && (nsec t =? 0)%Z.

(** [t.Before(u)]:
    [ts < us || ts == us && t.nsec() < u.nsec()]. *)
Definition Before (t u : Time) : bool :=
  (sec t <? sec u)%Z || ((sec t =? sec u)%Z && (nsec t <? nsec u)%Z).

(** [t.Add(d)]: Go's [/] and [%] truncate toward zero. *)
Definition Add (t : Time) (d : Duration) : Time :=
  let dsec := Z.quot d 1000000000 in
  let n := (nsec t + Z.rem d 1000000000)%Z in
  if (1000000000 <=? n)%Z then mkTime (sec t + (dsec + 1)) (n - 1000000000)
  else if (n <? 0)%Z then mkTime (sec t + (dsec - 1)) (n + 1000000000)
  else mkTime (sec t + dsec) n.

(** [time.RFC3339Nano]. *)
Definition RFC3339Nano : string := "2006-01-02T15:04:05.999999999Z07:00".

(** The instant in nanoseconds, used to state what [Before] decides. *)
Definition nanos (t : Time) : Z := (sec t * 1000000000 + nsec t)%Z.

(** The range [nsec] has in every [Time] the library builds. *)
Definition wf (t : Time) : Prop := (0 <= nsec t < 1000000000)%Z.

End GoTime.

(** ** Collaborating packages, as far as the file uses them. *)

(** [context]: the errors a receive call can return.  The loop compares the
    error with the sentinel [context.Canceled]; every other error value is
    [OtherError] with its message. *)
Module context.

Inductive error : Type :=
| Canceled
| OtherError (msg : string).

Definition isCanceled (e : error) : bool :=
  match e with Canceled => true | OtherError _ => false end.

(** [err.Error()], what [%v] prints. *)
Definition Error (e : error) : string :=
  match e with Canceled => "context canceled" | OtherError msg => msg end.

End context.

(** Modelled from the spec: the package [util] is not part of the file; the
    spec names it as the logging collaborator, with the levels verbose,
    error and warning.  A logger is its prefix, [WithPrefix] gives a logger
    with that prefix, and a log call is the entry it writes.  No property
    below depends on how a prefix is built. *)
Module util.

Inductive Level : Type := LevelVerbose | LevelError | LevelWarning.

Record Logger : Type := { prefix : string }.

Record LogEntry : Type :=
  { entryLevel : Level; entryPrefix : string; entryText : string }.

Definition WithPrefix (_ : Logger) (p : string) : Logger := {| prefix := p |}.

Definition PrintVerbose (l : Logger) (text : string) : LogEntry :=
  {| entryLevel := LevelVerbose; entryPrefix := prefix l; entryText := text |}.
Definition PrintError (l : Logger) (text : string) : LogEntry :=
  {| entryLevel := LevelError; entryPrefix := prefix l; entryText := text |}.
Definition PrintWarning (l : Logger) (text : string) : LogEntry :=
  {| entryLevel := LevelWarning; entryPrefix := prefix l; entryText := text |}.

End util.

(** [config.ServerConfig]: the fields read here.  The declaration of
    [config.ServerIdentifier] is not part of the file, so the identity is a
    type parameter. *)
Module config.

Record ServerConfig (ServerIdentifier : Type) : Type :=
  { SectionName : string;
    GcpPubsubSubscription : string;
    GcpCredentialsFile : string;
    GcpProjectID : string;
    GcpCloudSQLInstanceID : string;
    Identifier : ServerIdentifier }.

Arguments SectionName {_} _.
Arguments GcpPubsubSubscription {_} _.
Arguments GcpCredentialsFile {_} _.
Arguments GcpProjectID {_} _.
Arguments GcpCloudSQLInstanceID {_} _.
Arguments Identifier {_} _.

End config.

(** [state]: the log line (its occurrence timestamp and, as a type
    parameter, every other field), the item put on the output channel, the
    server and the collection options. *)
Module state.

Record LogLine (Fields : Type) : Type :=
  { OccurredAt : GoTime.Time; fields : Fields }.
Arguments OccurredAt {_} _.
Arguments fields {_} _.

(** The assignment [logLine.OccurredAt = t]. *)
Definition setOccurredAt {Fields} (l : LogLine Fields) (t : GoTime.Time)
  : LogLine Fields :=
  {| OccurredAt := t; fields := fields l |}.

Record ParsedLogStreamItem (Id Fields : Type) : Type :=
  { Identifier : Id; LogLine_ : LogLine Fields }.
Arguments Identifier {_ _} _.
Arguments LogLine_ {_ _} _.

Record Server (Id : Type) : Type := { Config : config.ServerConfig Id }.
Arguments Config {_} _.

Record CollectionOpts : Type := { TestRun : bool }.

End state.

(** ** The data of the file itself. *)

Record googleLogResource : Type :=
  { ResourceType : string;
    Labels : gmap string string }.

Record googleLogMessage : Type :=
  { InsertID : string;
    LogName : string;
    ReceiveTimestamp : string;
    Resource : googleLogResource;
    Severity : string;
    TextPayload : string;
    Timestamp : string }.

Record LogStreamItem : Type :=
  { GcpProjectID : string;
    GcpCloudSQLInstanceID : string;
    OccurredAt : GoTime.Time;
    Content : string }.

(** The two characters the source writes with an escape. *)
Definition dquote : string := String (ascii_of_nat 34) EmptyString.
Definition newline : string := String (ascii_of_nat 10) EmptyString.
Definition slash : ascii := "/"%char.

(** What the adapter goroutine does, in program order. *)
Inductive AdapterEffect : Type :=
| WgAdd (n : Z)
| WgDone
| Log (e : util.LogEntry)
| Ack
| Send (item : LogStreamItem)
| Sleep (d : GoTime.Duration).

(** One call of [sub.Receive]: the messages it hands to the callback while it
    runs, and the error it returns ([None] is [nil]). *)
Record ReceiveOutcome : Type :=
  { delivered : list string;
    returned : option context.error }.

(** Whether the goroutine has left its loop or is still in it. *)
Inductive LoopStatus : Type := Running | Exited.

(** What the transformer goroutine sees in its [select]. *)
Inductive ChanEvent : Type :=
| CtxDone
| Recv (item : LogStreamItem)
| ChanClosed.

(** [option.ClientOption], as far as it is built here. *)
Inductive ClientOption : Type :=
| WithCredentialsFile (file : string).

(** ** A small deployment, used to run the functions below.

    Two servers read the same subscription and stand for the same instance, a
    third one reads it for another instance, a fourth one names a
    subscription that is no path at all, a fifth one is in a project the
    provider refuses, and a sixth one names four segments that are no
    subscription path. *)
Module Scenario.

Definition Id : Type := string.
Definition Fields : Type := string.

Definition server (section key project instance identifier : string)
  : state.Server Id :=
  {| state.Config :=
       {| config.SectionName := section;
          config.GcpPubsubSubscription := key;
          config.GcpCredentialsFile := "";
          config.GcpProjectID := project;
          config.GcpCloudSQLInstanceID := instance;
          config.Identifier := identifier |} |}.

Definition primary : state.Server Id :=
  server "primary" "projects/p1/subscriptions/logs" "p1" "i1" "id-primary".
Definition mirror : state.Server Id :=
  server "mirror" "projects/p1/subscriptions/logs" "p1" "i1" "id-mirror".
Definition replica : state.Server Id :=
  server "replica" "projects/p1/subscriptions/logs" "p1" "i2" "id-replica".
Definition misnamed : state.Server Id :=
  server "misnamed" "logs" "p1" "i3" "id-misnamed".
Definition unreachable : state.Server Id :=
  server "unreachable" "projects/down/subscriptions/logs" "down" "i5"
         "id-unreachable".
Definition fourSegments : state.Server Id :=
  server "four" "a/b/c/d" "b" "i6" "id-four".

Definition servers : list (state.Server Id) := [primary; mirror; replica].

(** The line parser: it rejects the empty line, and reads a time of its own
    from the text. *)
Definition parseLine (_ line : string) : state.LogLine Fields * bool :=
  ({| state.OccurredAt := GoTime.mkTime 7 7; state.fields := line |},
   negb (String.eqb line newline)).

(** The timestamp parser knows one timestamp. *)
Definition noon : GoTime.Time := GoTime.mkTime 63850161600 0.
Definition parseTime (_ value : string) : option GoTime.Time :=
  if String.eqb value "2024-05-01T12:00:00Z" then Some noon else None.

(** The decoder: the payload is the text of the message; [garbled] does not
    decode, [undated] carries a timestamp that does not parse. *)
Definition message (text timestamp : string) : googleLogMessage :=
  {| InsertID := "1";
     LogName := "projects/p1/logs/cloudsql.googleapis.com%2Fpostgres.log";
     ReceiveTimestamp := timestamp;
     Resource :=
       {| ResourceType := "cloudsql_database";
          Labels := {[ "resource_container" := "projects/p1";
                       "cluster_id" := "i1" ]} |};
     Severity := "INFO";
     TextPayload := text;
     Timestamp := timestamp |}.

Definition decode (data : string) : googleLogMessage + string :=
  if String.eqb data "garbled" then inr "unexpected end of JSON input"
  else if String.eqb data "undated" then inl (message data "yesterday")
  else inl (message data "2024-05-01T12:00:00Z").

(** The provider: the world is the number of clients asked for, a client is
    the name of its project, and the project [down] cannot be reached. *)
Definition newClient (w : nat) (projectID : string) (_ : list ClientOption)
  : nat * (string + string) :=
  if String.eqb projectID "down" then (S w, inr "dial failed")
  else (S w, inl projectID).

Definition logger : util.Logger := {| util.prefix := "" |}.

(** The record the adapter sends for the message [LOG:  ready]. *)
Definition ready : LogStreamItem :=
  {| GcpProjectID := "p1";
     GcpCloudSQLInstanceID := "i1";
     OccurredAt := noon;
     Content := "LOG:  ready" |}.

(** The transformer started thirty seconds after noon, and ten minutes after
    noon. *)
Definition halfAMinuteLater : GoTime.Time := GoTime.mkTime 63850161630 0.
Definition tenMinutesLater : GoTime.Time := GoTime.mkTime 63850162200 0.

(** The same record without a timestamp, and a record without text. *)
Definition undated : LogStreamItem :=
  {| GcpProjectID := "p1";
     GcpCloudSQLInstanceID := "i1";
     OccurredAt := GoTime.zero;
     Content := "LOG:  ready" |}.
Definition blank : LogStreamItem :=
  {| GcpProjectID := "p1";
     GcpCloudSQLInstanceID := "i1";
     OccurredAt := noon;
     Content := "" |}.

(** What the line parser makes of [LOG:  ready], and the line the
    transformer hands on. *)
Definition parsedReady : state.LogLine Fields :=
  {| state.OccurredAt := GoTime.mkTime 7 7;
     state.fields := "LOG:  ready" +:+ newline |}.
Definition readyAt (t : GoTime.Time) : state.LogLine Fields :=
  {| state.OccurredAt := t; state.fields := "LOG:  ready" +:+ newline |}.

(** A provider whose first client cannot be created. *)
Definition flakyClient (w : nat) (projectID : string) (_ : list ClientOption)
  : nat * (string + string) :=
  if (w =? 0)%nat then (S w, inr "dial failed") else (S w, inl projectID).

(** Receive calls: one that fails after a message, one that fails at once,
    one that is cancelled. *)
Definition dropped : ReceiveOutcome :=
  {| delivered := ["LOG:  ready"];
     returned := Some (context.OtherError "stream reset") |}.
Definition refused : ReceiveOutcome :=
  {| delivered := [];
     returned := Some (context.OtherError "permission denied") |}.
Definition cancelled : ReceiveOutcome :=
  {| delivered := []; returned := Some context.Canceled |}.

Definition normalRun : state.CollectionOpts := {| state.TestRun := false |}.
Definition testRun : state.CollectionOpts := {| state.TestRun := true |}.

(** A server that reads its log some other way, and the start of a
    transformer one minute after noon to the nanosecond. *)
Definition local : state.Server Id := server "local" "" "p1" "i1" "id-local".

End Scenario.

(** ** The functions of [logs.go]. *)
Section google_cloudsql.

(** Types whose declarations live in other packages. *)
Variables ServerIdentifier LogLineFields : Type.

(** [logs.ParseLogLineWithPrefix(prefix, line)]: the parsed line and [ok]. *)
Variable ParseLogLineWithPrefix :
  string -> string -> state.LogLine LogLineFields * bool.

(** [json.Unmarshal(data, &msg)]: the decoded message, or the error. *)
Variable json_Unmarshal : string -> googleLogMessage + string.

(** The parser behind [time.Parse(layout, value)]; [None] when it reports
    an error. *)
Variable time_parse : string -> string -> option GoTime.Time.

(** The provider: [pubsub.NewClient(ctx, projectID, opts...)] acts on the
    outside world and returns a client or an error. *)
Variables World Client : Type.
Variable pubsub_NewClient :
  World -> string -> list ClientOption -> World * (Client + string).

Abbreviation ServerConfig := (config.ServerConfig ServerIdentifier).
Abbreviation Server := (state.Server ServerIdentifier).
Abbreviation LogLine := (state.LogLine LogLineFields).
Abbreviation ParsedLogStreamItem :=
  (state.ParsedLogStreamItem ServerIdentifier LogLineFields).

(** [time.Parse]: on an error the library returns the zero [Time] next to
    it. *)
Definition time_Parse (layout value : string)
  : GoTime.Time * option string :=
  match time_parse layout value with
  | Some t => (t, None)
  | None => (GoTime.zero, Some ("parsing time " +:+ value))
  end.

(** *** The adapter *)

(** The callback handed to [sub.Receive] (lines 67-103), run on the payload
    of one message. *)
Definition onMessage (logger : util.Logger) (data : string)
  : list AdapterEffect :=
  Ack ::
  match json_Unmarshal data with
  | inr err =>
      [Log (util.PrintError logger ("Error parsing JSON: " +:+ err))]
  | inl msg =>
      if negb (String.eqb (ResourceType (Resource msg)) "cloudsql_database")
         && negb (String.eqb (ResourceType (Resource msg))
                             "alloydb.googleapis.com/Instance")
      then []
      else if negb (GoStrings.HasSuffix (LogName msg) "postgres.log")
      then []
      else
        match Labels (Resource msg) !! "resource_container" with
        | None => []
        | Some resourceContainer =>
            if negb (GoStrings.Count resourceContainer slash =? 1)%nat
            then []
            else
              let parts := GoStrings.SplitN resourceContainer slash 2 in
              match Labels (Resource msg) !! "cluster_id" with
              | None => []
              | Some clusterID =>
                  let t := fst (time_Parse GoTime.RFC3339Nano
                                           (Timestamp msg)) in
                  [Send {| GcpProjectID := GoStrings.index parts 1;
                           GcpCloudSQLInstanceID := clusterID;
                           Content := TextPayload msg;
                           OccurredAt := t |}]
              end
        end
  end.

(** The [for] loop of the goroutine (lines 65-110), over the outcomes of
    its successive [sub.Receive] calls.  When the list ends the goroutine
    is inside the next call. *)
Fixpoint receiveLoop (logger : util.Logger) (outcomes : list ReceiveOutcome)
  : list AdapterEffect * LoopStatus :=
  match outcomes with
  | [] =>
      ([Log (util.PrintVerbose logger "Initializing Google Pub/Sub handler")],
       Running)
  | o :: rest =>
      let received :=
        Log (util.PrintVerbose logger "Initializing Google Pub/Sub handler")
        :: flat_map (onMessage logger) (delivered o) in
      match returned o with
      | None => (received, Exited)
      | Some err =>
          if context.isCanceled err then (received, Exited)
          else
            let '(later, status) := receiveLoop logger rest in
            (received
               ++ Log (util.PrintError logger
                         ("Failed to receive from Google PubSub, retrying in 1 minute: "
                            +:+ context.Error err))
               :: Sleep (1 * GoTime.Minute)%Z
               :: later,
             status)
      end
  end.

(** The goroutine (lines 63-112): [wg.Add(1)], the loop, [wg.Done()]. *)
Definition receiver (logger : util.Logger) (outcomes : list ReceiveOutcome)
  : list AdapterEffect * LoopStatus :=
  let '(trace, status) := receiveLoop logger outcomes in
  match status with
  | Exited => (WgAdd 1 :: trace ++ [WgDone], Exited)
  | Running => (WgAdd 1 :: trace, Running)
  end.

(** *** The coordinator *)

(** What the coordinator does besides acting on the provider. *)
Inductive SetupEffect : Type :=
| SetupLog (e : util.LogEntry)
| SetupWgAdd (n : Z)
| GoTransformer (servers : list Server) (logger : util.Logger)
| GoReceiver (cfg : ServerConfig) (logger : util.Logger)
             (client : Client) (subID : string).

(** The state the coordinator threads through its calls. *)
Record SetupState : Type :=
  { world : World;
    gcpPubSubHandlers : gmap string bool }.

(** A call's effects next to what it returns. *)
Definition after {A : Type} (effects : list SetupEffect)
           (r : A * list SetupEffect * option string)
  : A * list SetupEffect * option string :=
  (r.1.1, effects ++ r.1.2, r.2).

(** The text of line 55. *)
Definition noCredentialsFile : string :=
  "No GCP credentials file provided; assuming GKE workload identity or VM-associated service account".

(** The client options and the verbose note of lines 50-56. *)
Definition clientOptions (logger : util.Logger) (cfg : ServerConfig)
  : list ClientOption * util.LogEntry :=
  if negb (String.eqb (config.GcpCredentialsFile cfg) "")
  then ([WithCredentialsFile (config.GcpCredentialsFile cfg)],
        util.PrintVerbose logger
          ("Using GCP credentials file located at: "
             +:+ config.GcpCredentialsFile cfg))
  else ([],
        util.PrintVerbose logger
          noCredentialsFile).

(** Lines 50-62 and 114: the client is created and, when that works, the
    goroutine is started; it is the effect [GoReceiver], tagged with the
    configuration of the call. *)
Definition startReceiver (w : World) (logger : util.Logger)
           (cfg : ServerConfig) (projectID subID : string)
  : World * list SetupEffect * option string :=
  let '(opts, said) := clientOptions logger cfg in
  match pubsub_NewClient w projectID opts with
  | (w', inr err) =>
      (w', [SetupLog said],
       Some ("Failed to create Google PubSub client: " +:+ err))
  | (w', inl client) =>
      (w', [SetupLog said; GoReceiver cfg logger client subID], None)
  end.

(** The error of line 44. *)
Definition unsupportedFormat (key : string) : string :=
  "Unsupported subscription format - must be " +:+ dquote
    +:+ "projects/PROJECT_NAME/subscriptions/SUBSCRIPTION_NAME"
    +:+ dquote +:+ ", got: " +:+ key.

(** [setupPubSubSubscriber] (lines 42-115). *)
Definition setupPubSubSubscriber (w : World) (logger : util.Logger)
           (cfg : ServerConfig)
  : World * list SetupEffect * option string :=
  if negb (GoStrings.Count (config.GcpPubsubSubscription cfg) slash =? 3)%nat
  then (w, [], Some (unsupportedFormat (config.GcpPubsubSubscription cfg)))
  else
    let idParts :=
      GoStrings.SplitN (config.GcpPubsubSubscription cfg) slash 4 in
    let projectID := GoStrings.index idParts 1 in
    let subID := GoStrings.index idParts 3 in
    startReceiver w logger cfg projectID subID.

(** One turn of the [for] loop of [SetupLogSubscriber] (lines 125-142).  An
    error in the result is the [return err] of line 134; otherwise the loop
    goes on, after a [continue] or at the end of the body. *)
Definition subscribe (testRun : bool) (logger : util.Logger)
           (server : Server) (st : SetupState)
  : SetupState * list SetupEffect * option string :=
  let prefixedLogger :=
    util.WithPrefix logger (config.SectionName (state.Config server)) in
  let key := config.GcpPubsubSubscription (state.Config server) in
  if negb (String.eqb key "") then
    match gcpPubSubHandlers st !! key with
    | Some _ => (st, [], None)
    | None =>
        match setupPubSubSubscriber (world st) prefixedLogger
                                    (state.Config server) with
        | (w', effects, Some err) =>
            let st' := {| world := w';
                          gcpPubSubHandlers := gcpPubSubHandlers st |} in
            if testRun then (st', effects, Some err)
            else
              (st',
               effects
                 ++ [SetupLog
                       (util.PrintWarning prefixedLogger
                          ("Skipping logs, could not setup log subscriber: "
                             +:+ err))],
               None)
        | (w', effects, None) =>
            ({| world := w';
                gcpPubSubHandlers := <[key := true]> (gcpPubSubHandlers st) |},
             effects, None)
        end
    end
  else (st, [], None).

(** The [for] loop of [SetupLogSubscriber] (lines 124-143). *)
Fixpoint subscribeServers (testRun : bool) (logger : util.Logger)
         (servers : list Server) (st : SetupState)
  : SetupState * list SetupEffect * option string :=
  match servers with
  | [] => (st, [], None)
  | server :: rest =>
      match subscribe testRun logger server st with
      | (st', effects, Some err) => (st', effects, Some err)
      | (st', effects, None) =>
          after effects (subscribeServers testRun logger rest st')
      end
  end.

(** [setupLogTransformer] (lines 148-150, 187): one more in the wait group,
    and the goroutine [transformer] below is started. *)
Definition setupLogTransformer (servers : list Server) (logger : util.Logger)
  : list SetupEffect :=
  [SetupWgAdd 1; GoTransformer servers logger].

(** [SetupLogSubscriber] (lines 117-146): the transformer is set up, and the
    loop starts from the empty map. *)
Definition SetupLogSubscriber (w : World)
           (globalCollectionOpts : state.CollectionOpts)
           (logger : util.Logger) (servers : list Server)
  : SetupState * list SetupEffect * option string :=
  after (setupLogTransformer servers logger)
    (subscribeServers (state.TestRun globalCollectionOpts) logger servers
       {| world := w; gcpPubSubHandlers := ∅ |}).

(** *** The transformer *)

(** What the transformer goroutine does. *)
Inductive TransformerEffect : Type :=
| TransformerLog (e : util.LogEntry)
| Emit (item : ParsedLogStreamItem)
| TransformerWgDone.

(** The inner [for] over the servers (lines 180-184). *)
Fixpoint route (servers : list Server) (in_ : LogStreamItem)
         (logLine : LogLine) : list TransformerEffect :=
  match servers with
  | [] => []
  | server :: rest =>
      if String.eqb (GcpProjectID in_)
                    (config.GcpProjectID (state.Config server))
         && String.eqb (GcpCloudSQLInstanceID in_)
                       (config.GcpCloudSQLInstanceID (state.Config server))
      then Emit {| state.Identifier := config.Identifier (state.Config server);
                   state.LogLine_ := logLine |}
             :: route rest in_ logLine
      else route rest in_ logLine
  end.

(** The body of the [case in, ok := <-in] branch for a received record
    (lines 168-184). *)
Definition transformItem (logger : util.Logger) (servers : list Server)
           (linesNewerThan : GoTime.Time) (in_ : LogStreamItem)
  : list TransformerEffect :=
  let '(logLine, ok) :=
    ParseLogLineWithPrefix "" (Content in_ +:+ newline) in
  if negb ok then
    [TransformerLog
       (util.PrintError logger
          ("Can't parse log line: " +:+ dquote +:+ Content in_ +:+ dquote))]
  else
    let logLine := state.setOccurredAt logLine (OccurredAt in_) in
    if negb (GoTime.IsZero (state.OccurredAt logLine))
       && GoTime.Before (state.OccurredAt logLine) linesNewerThan
    then []
    else route servers in_ logLine.

(** The [for { select { ... } }] loop (lines 156-186) with the deferred
    [wg.Done()], over what the [select] receives.  When the list ends the
    goroutine is blocked in the [select]. *)
Fixpoint transformLoop (logger : util.Logger) (servers : list Server)
         (linesNewerThan : GoTime.Time) (events : list ChanEvent)
  : list TransformerEffect * LoopStatus :=
  match events with
  | [] => ([], Running)
  | CtxDone :: _ => ([TransformerWgDone], Exited)
  | ChanClosed :: _ => ([TransformerWgDone], Exited)
  | Recv in_ :: rest =>
      let '(later, status) :=
        transformLoop logger servers linesNewerThan rest in
      (transformItem logger servers linesNewerThan in_ ++ later, status)
  end.

(** The goroutine of [setupLogTransformer] (lines 150-187); [now] is what
    [time.Now()] returns when it starts. *)
Definition transformer (now : GoTime.Time) (logger : util.Logger)
           (servers : list Server) (events : list ChanEvent)
  : list TransformerEffect * LoopStatus :=
  let linesNewerThan := GoTime.Add now (-1 * GoTime.Minute)%Z in
  transformLoop logger servers linesNewerThan events.

(** *** Reading traces *)

(** The items written to the output channel, in order. *)
Definition emitted (trace : list TransformerEffect)
  : list ParsedLogStreamItem :=
  omap (fun e => match e with Emit item => Some item | _ => None end) trace.

(** A record and a server have the same (project, instance) pair. *)
Definition sameOrigin (in_ : LogStreamItem) (server : Server) : Prop :=
  (GcpProjectID in_, GcpCloudSQLInstanceID in_)
  = (config.GcpProjectID (state.Config server),
     config.GcpCloudSQLInstanceID (state.Config server)).

#[global] Instance sameOrigin_dec in_ server : Decision (sameOrigin in_ server).
Proof. unfold sameOrigin. apply _. Defined.

(** The item the transformer writes for a server. *)
Definition routed (logLine : LogLine) (server : Server)
  : ParsedLogStreamItem :=
  {| state.Identifier := config.Identifier (state.Config server);
     state.LogLine_ := logLine |}.

(** The receiver goroutines started for a subscription identifier. *)
Definition isReceiverFor (key : string) (e : SetupEffect) : bool :=
  match e with
  | GoReceiver cfg _ _ _ => String.eqb (config.GcpPubsubSubscription cfg) key
  | _ => false
  end.

Definition receiversFor (key : string) (trace : list SetupEffect)
  : list SetupEffect :=
  List.filter (isReceiverFor key) trace.


(** A receive call ends the loop when it returns [nil] or the cancellation
    error, and is retried otherwise. *)
Definition endsLoop (o : ReceiveOutcome) : bool :=
  match returned o with
  | None => true
  | Some err => context.isCanceled err
  end.

(** One receive call seen from the trace: the announcement and the
    callbacks that run during the call. *)
Definition receiveCall (logger : util.Logger) (o : ReceiveOutcome)
  : list AdapterEffect :=
  Log (util.PrintVerbose logger "Initializing Google Pub/Sub handler")
  :: flat_map (onMessage logger) (delivered o).

(** The report and the pause that follow a failed receive call. *)
Definition coolDown (logger : util.Logger) (o : ReceiveOutcome)
  : list AdapterEffect :=
  match returned o with
  | Some err =>
      [Log (util.PrintError logger
              ("Failed to receive from Google PubSub, retrying in 1 minute: "
                 +:+ context.Error err));
       Sleep 60000000000%Z]
  | None => []
  end.

(** The shape the error of line 44 names: the literal segments [projects]
    and [subscriptions], each followed by a name without a slash. *)
Definition fullyQualified (key : string) : Prop :=
  exists project name,
    GoStrings.Count project slash = 0
    /\ GoStrings.Count name slash = 0
    /\ key = "projects/" +:+ project +:+ "/subscriptions/" +:+ name.

(** *** Reading traces, continued *)

(** The records the adapter puts on its channel, in order. *)
Definition sends (trace : list AdapterEffect) : list LogStreamItem :=
  omap (fun e => match e with Send item => Some item | _ => None end) trace.

(** The acknowledgements among the adapter's effects. *)
Definition isAck (e : AdapterEffect) : bool :=
  match e with Ack => true | _ => false end.

Definition acks (trace : list AdapterEffect) : nat :=
  length (List.filter isAck trace).


(** The wait-group calls among the adapter's effects. *)
Definition isWaitGroup (e : AdapterEffect) : bool :=
  match e with WgAdd _ | WgDone => true | _ => false end.

(** The receive calls that run to their end: all up to and with the first one
    that ends the loop. *)
Fixpoint consumed (outcomes : list ReceiveOutcome) : list ReceiveOutcome :=
  match outcomes with
  | [] => []
  | o :: rest => if endsLoop o then [o] else o :: consumed rest
  end.

(** The log entries among the transformer's effects. *)
Definition transformerLogged (trace : list TransformerEffect)
  : list util.LogEntry :=
  omap (fun e => match e with TransformerLog entry => Some entry | _ => None end)
       trace.

(** The goroutines among the coordinator's effects. *)
Definition isGoReceiver (e : SetupEffect) : bool :=
  match e with GoReceiver _ _ _ _ => true | _ => false end.

Definition isGoTransformer (e : SetupEffect) : bool :=
  match e with GoTransformer _ _ => true | _ => false end.

(** The log entries among the coordinator's effects. *)
Definition setupLogged (trace : list SetupEffect) : list util.LogEntry :=
  omap (fun e => match e with SetupLog entry => Some entry | _ => None end)
       trace.

(** A trace of log entries and nothing else. *)
Definition onlyLogs (trace : list SetupEffect) : Prop :=
  Forall (fun e => exists entry, e = SetupLog entry) trace.

(** [strings.Join(a, sep)] for a one-byte [sep]; the source does not call it,
    it is what undoes [SplitN]. *)
Fixpoint Join (a : list string) (sep : ascii) : string :=
  match a with
  | [] => EmptyString
  | x :: rest =>
      match rest with
      | [] => x
      | _ :: _ => x +:+ String sep (Join rest sep)
      end
  end.

(** ** Properties of the transformer *)

Lemma emitted_app (t1 t2 : list TransformerEffect) :
  emitted (t1 ++ t2) = emitted t1 ++ emitted t2.
Proof. unfold emitted. apply omap_app. Qed.

Lemma sameOrigin_eqb (in_ : LogStreamItem) (server : Server) :
  String.eqb (GcpProjectID in_) (config.GcpProjectID (state.Config server))
  && String.eqb (GcpCloudSQLInstanceID in_)
                (config.GcpCloudSQLInstanceID (state.Config server))
  = bool_decide (sameOrigin in_ server).
Proof.
  unfold sameOrigin.
  destruct (String.eqb_spec (GcpProjectID in_)
              (config.GcpProjectID (state.Config server))) as [Hp | Hp];
    destruct (String.eqb_spec (GcpCloudSQLInstanceID in_)
                (config.GcpCloudSQLInstanceID (state.Config server)))
      as [Hi | Hi]; simpl; symmetry.
  - apply bool_decide_eq_true. congruence.
  - apply bool_decide_eq_false. congruence.
  - apply bool_decide_eq_false. congruence.
  - apply bool_decide_eq_false. congruence.
Qed.

(** The routing loop writes nothing but items, one per matching server, in
    the order of the servers. *)
Lemma route_spec (servers : list Server) in_ logLine :
  route servers in_ logLine
  = Emit <$> (routed logLine <$> filter (sameOrigin in_) servers).
Proof.
  induction servers as [| server rest IH]; [reflexivity |].
  cbn [route]. rewrite sameOrigin_eqb, filter_cons.
  destruct (decide (sameOrigin in_ server)) as [Hm | Hm].
  - rewrite bool_decide_eq_true_2 by exact Hm. cbn. now rewrite IH.
  - rewrite bool_decide_eq_false_2 by exact Hm. exact IH.
Qed.

Lemma emitted_Emit (items : list ParsedLogStreamItem) :
  emitted (Emit <$> items) = items.
Proof.
  induction items as [| item rest IH]; [reflexivity |].
  cbn. unfold emitted in IH. now rewrite IH.
Qed.

(** Records received one after the other are transformed one after the
    other. *)
Lemma transformLoop_app logger servers cutoff
      (before : list LogStreamItem) (events : list ChanEvent) :
  transformLoop logger servers cutoff ((Recv <$> before) ++ events)
  = (flat_map (transformItem logger servers cutoff) before
       ++ (transformLoop logger servers cutoff events).1,
     (transformLoop logger servers cutoff events).2).
Proof.
  induction before as [| in_ rest IH]; cbn [fmap list_fmap app flat_map].
  - now destruct (transformLoop logger servers cutoff events).
  - cbn [transformLoop]. rewrite IH. cbn. now rewrite app_assoc.
Qed.

Lemma transformLoop_Recv logger servers cutoff
      (before : list LogStreamItem) :
  transformLoop logger servers cutoff (Recv <$> before)
  = (flat_map (transformItem logger servers cutoff) before, Running).
Proof.
  rewrite <- (app_nil_r (Recv <$> before)), transformLoop_app.
  cbn. now rewrite app_nil_r.
Qed.

(** What the freshness test of line 176 decides, in nanoseconds. *)
Lemma Before_cutoff (t now : GoTime.Time) :
  GoTime.wf t -> GoTime.wf now ->
  GoTime.Before t (GoTime.Add now (-1 * GoTime.Minute)%Z) = true
  <-> (GoTime.nanos t < GoTime.nanos now - 60 * 1000000000)%Z.
Proof.
  unfold GoTime.wf, GoTime.Before, GoTime.Add, GoTime.nanos.
  intros Ht Hnow.
  replace (-1 * GoTime.Minute)%Z with (-60000000000)%Z by reflexivity.
  replace (Z.quot (-60000000000) 1000000000) with (-60)%Z by reflexivity.
  replace (Z.rem (-60000000000) 1000000000) with 0%Z by reflexivity.
  rewrite Z.add_0_r.
  destruct (Z.leb_spec 1000000000 (GoTime.nsec now)); [lia |].
  destruct (Z.ltb_spec (GoTime.nsec now) 0); [lia |].
  cbn [GoTime.sec GoTime.nsec].
  rewrite orb_true_iff, andb_true_iff, Z.ltb_lt, Z.ltb_lt, Z.eqb_eq.
  lia.
Qed.

(** What the transformer does with one record, case by case. *)
Lemma transformItem_unparsed logger servers cutoff in_ logLine :
  ParseLogLineWithPrefix "" (Content in_ +:+ newline) = (logLine, false) ->
  transformItem logger servers cutoff in_
  = [TransformerLog
       (util.PrintError logger
          ("Can't parse log line: " +:+ dquote +:+ Content in_ +:+ dquote))].
Proof. intros Hparse. unfold transformItem. now rewrite Hparse. Qed.

Lemma transformItem_stale logger servers cutoff in_ logLine :
  ParseLogLineWithPrefix "" (Content in_ +:+ newline) = (logLine, true) ->
  GoTime.IsZero (OccurredAt in_) = false ->
  GoTime.Before (OccurredAt in_) cutoff = true ->
  transformItem logger servers cutoff in_ = [].
Proof.
  intros Hparse Hzero Hbefore. unfold transformItem.
  rewrite Hparse. cbn. now rewrite Hzero, Hbefore.
Qed.

Lemma transformItem_fresh logger servers cutoff in_ logLine :
  ParseLogLineWithPrefix "" (Content in_ +:+ newline) = (logLine, true) ->
  GoTime.IsZero (OccurredAt in_) = true
  \/ GoTime.Before (OccurredAt in_) cutoff = false ->
  transformItem logger servers cutoff in_
  = route servers in_ (state.setOccurredAt logLine (OccurredAt in_)).
Proof.
  intros Hparse Hfresh. unfold transformItem.
  rewrite Hparse. cbn.
  destruct Hfresh as [-> | ->]; [reflexivity |].
  now rewrite andb_false_r.
Qed.

(** C1. A record that the line parser accepts and that passes the
    freshness test is written to the output channel once for every server
    whose (project, instance) pair equals the record's, with that server's
    identifier and the parsed line, in the order of the servers: as many
    items as there are matching servers, none when there is none.  In the
    stream of a running transformer these items stand between those of the
    earlier and those of the later records. *)
Theorem transformer_broadcasts (now : GoTime.Time) logger
        (servers : list Server) (before : list LogStreamItem)
        (in_ : LogStreamItem) (later : list ChanEvent) (logLine : LogLine) :
  ParseLogLineWithPrefix "" (Content in_ +:+ newline) = (logLine, true) ->
  GoTime.IsZero (OccurredAt in_) = true
  \/ GoTime.Before (OccurredAt in_)
       (GoTime.Add now (-1 * GoTime.Minute)%Z) = false ->
  let sent :=
    routed (state.setOccurredAt logLine (OccurredAt in_))
      <$> filter (sameOrigin in_) servers in
  emitted (transformItem logger servers
             (GoTime.Add now (-1 * GoTime.Minute)%Z) in_) = sent
  /\ length sent = length (filter (sameOrigin in_) servers)
  /\ emitted (transformer now logger servers
                ((Recv <$> before) ++ Recv in_ :: later)).1
     = emitted (transformer now logger servers (Recv <$> before)).1
         ++ sent
         ++ emitted (transformer now logger servers later).1.
Proof.
  intros Hparse Hfresh sent.
  assert (Hitem : emitted (transformItem logger servers
                   (GoTime.Add now (-1 * GoTime.Minute)%Z) in_) = sent).
  { rewrite (transformItem_fresh _ _ _ _ _ Hparse Hfresh), route_spec.
    apply emitted_Emit. }
  split; [exact Hitem |]. split; [apply length_fmap |].
  unfold transformer.
  rewrite transformLoop_app, transformLoop_Recv. cbn [fst snd transformLoop].
  destruct (transformLoop logger servers _ later) as [trace status].
  cbn [fst]. now rewrite !emitted_app, Hitem.
Qed.

(** C2. A record whose timestamp is not the zero value and lies more than
    one minute before the instant the transformer started is dropped:
    nothing is written to the output channel for it, whatever the line
    parser says, and the output of the stream is that of the stream without
    the record. *)
Theorem transformer_drops_stale (now : GoTime.Time) logger
        (servers : list Server) (before : list LogStreamItem)
        (in_ : LogStreamItem) (later : list ChanEvent) :
  GoTime.wf now -> GoTime.wf (OccurredAt in_) ->
  GoTime.IsZero (OccurredAt in_) = false ->
  (GoTime.nanos (OccurredAt in_) < GoTime.nanos now - 60 * 1000000000)%Z ->
  emitted (transformItem logger servers
             (GoTime.Add now (-1 * GoTime.Minute)%Z) in_) = []
  /\ emitted (transformer now logger servers
                ((Recv <$> before) ++ Recv in_ :: later)).1
     = emitted (transformer now logger servers
                  ((Recv <$> before) ++ later)).1.
Proof.
  intros Hnow Ht Hzero Hold.
  apply (Before_cutoff _ _ Ht Hnow) in Hold.
  assert (Hitem : emitted (transformItem logger servers
                   (GoTime.Add now (-1 * GoTime.Minute)%Z) in_) = []).
  { destruct (ParseLogLineWithPrefix "" (Content in_ +:+ newline))
      as [logLine [|]] eqn:Hparse.
    - now rewrite (transformItem_stale _ _ _ _ _ Hparse Hzero Hold).
    - now rewrite (transformItem_unparsed _ _ _ _ _ Hparse). }
  split; [exact Hitem |].
  unfold transformer. rewrite !transformLoop_app. cbn [fst snd transformLoop].
  destruct (transformLoop logger servers _ later) as [trace status].
  cbn [fst]. now rewrite !emitted_app, Hitem.
Qed.

(** C3. A record whose timestamp is the zero value is never dropped by the
    freshness test: once parsed it goes to the routing loop, whatever the
    cutoff is. *)
Theorem transformer_keeps_unknown_time logger (servers : list Server)
        (cutoff : GoTime.Time) (in_ : LogStreamItem) (logLine : LogLine) :
  ParseLogLineWithPrefix "" (Content in_ +:+ newline) = (logLine, true) ->
  GoTime.IsZero (OccurredAt in_) = true ->
  transformItem logger servers cutoff in_
  = route servers in_ (state.setOccurredAt logLine (OccurredAt in_))
  /\ emitted (transformItem logger servers cutoff in_)
     = routed (state.setOccurredAt logLine (OccurredAt in_))
         <$> filter (sameOrigin in_) servers.
Proof.
  intros Hparse Hzero.
  rewrite (transformItem_fresh _ _ _ _ _ Hparse (or_introl Hzero)).
  split; [reflexivity |]. rewrite route_spec. apply emitted_Emit.
Qed.

(** C9. A record that the line parser rejects (called with the empty
    prefix and the content followed by a line terminator) is logged with
    its raw content and dropped: nothing is written to the output channel
    for it, the loop goes on with the records that follow, and its status
    is theirs. *)
Theorem transformer_skips_unparsed logger (servers : list Server)
        (cutoff : GoTime.Time) (in_ : LogStreamItem) (logLine : LogLine)
        (later : list ChanEvent) :
  ParseLogLineWithPrefix "" (Content in_ +:+ newline) = (logLine, false) ->
  let complaint :=
    TransformerLog
      (util.PrintError logger
         ("Can't parse log line: " +:+ dquote +:+ Content in_ +:+ dquote)) in
  transformItem logger servers cutoff in_ = [complaint]
  /\ emitted (transformItem logger servers cutoff in_) = []
  /\ transformLoop logger servers cutoff (Recv in_ :: later)
     = (complaint :: (transformLoop logger servers cutoff later).1,
        (transformLoop logger servers cutoff later).2).
Proof.
  intros Hparse complaint.
  pose proof (transformItem_unparsed logger servers cutoff _ _ Hparse) as Hitem.
  fold complaint in Hitem.
  split; [exact Hitem |]. split; [now rewrite Hitem |].
  cbn [transformLoop]. rewrite Hitem.
  now destruct (transformLoop logger servers cutoff later).
Qed.

(** Every item the transformer writes comes from a record it received,
    parsed, and found a server for. *)
Lemma transformItem_emitted_elem logger (servers : list Server) cutoff in_
      (r : ParsedLogStreamItem) :
  r ∈ emitted (transformItem logger servers cutoff in_) ->
  exists logLine server,
    ParseLogLineWithPrefix "" (Content in_ +:+ newline) = (logLine, true)
    /\ server ∈ servers /\ sameOrigin in_ server
    /\ r = routed (state.setOccurredAt logLine (OccurredAt in_)) server.
Proof.
  unfold transformItem.
  destruct (ParseLogLineWithPrefix "" (Content in_ +:+ newline))
    as [logLine [|]] eqn:Hparse; cbn [negb].
  - destruct (negb (GoTime.IsZero _) && GoTime.Before _ cutoff).
    + intros Hr. cbn in Hr. now apply elem_of_nil in Hr.
    + rewrite route_spec, emitted_Emit. intros Hr.
      apply list_elem_of_fmap in Hr as (server & -> & Hserver).
      apply list_elem_of_filter in Hserver as [Hsame Hserver].
      now exists logLine, server.
  - intros Hr. cbn in Hr. now apply elem_of_nil in Hr.
Qed.

Lemma transformLoop_emitted_elem logger (servers : list Server) cutoff
      (events : list ChanEvent) (r : ParsedLogStreamItem) :
  r ∈ emitted (transformLoop logger servers cutoff events).1 ->
  exists in_,
    Recv in_ ∈ events
    /\ r ∈ emitted (transformItem logger servers cutoff in_).
Proof.
  induction events as [| [| in_ |] rest IH]; cbn [transformLoop].
  - intros Hr. now apply elem_of_nil in Hr.
  - intros Hr. cbn in Hr. now apply elem_of_nil in Hr.
  - destruct (transformLoop logger servers cutoff rest) as [trace status].
    cbn [fst] in *. rewrite emitted_app, elem_of_app.
    intros [Hr | Hr].
    + exists in_. split; [apply list_elem_of_here | exact Hr].
    + destruct (IH Hr) as (in' & Hin & Hr').
      exists in'. split; [now apply list_elem_of_further | exact Hr'].
  - intros Hr. cbn in Hr. now apply elem_of_nil in Hr.
Qed.

(** ** Properties of the adapter's callback *)

(** A record the callback sends carries the decoded message's payload and
    its timestamp as [time.Parse] returns it. *)
Lemma onMessage_Send logger (data : string) (item : LogStreamItem) :
  Send item ∈ onMessage logger data ->
  exists msg,
    json_Unmarshal data = inl msg
    /\ Content item = TextPayload msg
    /\ OccurredAt item
       = (time_Parse GoTime.RFC3339Nano (Timestamp msg)).1.
Proof.
  unfold onMessage. intros Hsend.
  apply elem_of_cons in Hsend as [Hack | Hsend]; [discriminate Hack |].
  destruct (json_Unmarshal data) as [msg | err].
  - exists msg. split; [reflexivity |].
    repeat match type of Hsend with
           | _ ∈ (if ?b then _ else _) => destruct b
           | _ ∈ match ?o with Some _ => _ | None => _ end => destruct o
           | _ ∈ [] => now apply elem_of_nil in Hsend
           end.
    apply list_elem_of_singleton in Hsend.
    injection Hsend as ->. now cbn.
  - apply list_elem_of_singleton in Hsend. discriminate Hsend.
Qed.

Lemma time_Parse_value (layout value : string) :
  (time_Parse layout value).1
  = match time_parse layout value with
    | Some t => t
    | None => GoTime.zero
    end.
Proof. unfold time_Parse. now destruct (time_parse layout value). Qed.

(** C5. When the records the transformer receives are those the adapter's
    callback sent, the line of every item on the output channel has as its
    occurrence timestamp what parsing the [timestamp] field of the
    provider's message with the layout [RFC3339Nano] gives, the zero value
    when that fails; it replaces whatever timestamp the line parser
    returned. *)
Theorem occurrence_time_from_message (now : GoTime.Time) logger
        (servers : list Server) (events : list ChanEvent)
        (r : ParsedLogStreamItem) :
  (forall in_, Recv in_ ∈ events ->
     exists adapterLogger data, Send in_ ∈ onMessage adapterLogger data) ->
  r ∈ emitted (transformer now logger servers events).1 ->
  exists adapterLogger data msg in_ logLine,
    json_Unmarshal data = inl msg
    /\ Send in_ ∈ onMessage adapterLogger data
    /\ Recv in_ ∈ events
    /\ ParseLogLineWithPrefix "" (TextPayload msg +:+ newline)
       = (logLine, true)
    /\ state.LogLine_ r
       = {| state.OccurredAt :=
              match time_parse GoTime.RFC3339Nano (Timestamp msg) with
              | Some t => t
              | None => GoTime.zero
              end;
            state.fields := state.fields logLine |}.
Proof.
  intros Hsent Hr. unfold transformer in Hr.
  apply transformLoop_emitted_elem in Hr as (in_ & Hin & Hr).
  apply transformItem_emitted_elem in Hr
    as (logLine & server & Hparse & _ & _ & ->).
  destruct (Hsent in_ Hin) as (adapterLogger & data & Hsend).
  destruct (onMessage_Send _ _ _ Hsend) as (msg & Hjson & Hcontent & Htime).
  exists adapterLogger, data, msg, in_, logLine.
  rewrite <- Hcontent, <- time_Parse_value, <- Htime.
  repeat split; assumption || reflexivity.
Qed.

(** ** Properties of the receive loop *)

Lemma receiveLoop_retry logger (o : ReceiveOutcome)
      (rest : list ReceiveOutcome) :
  endsLoop o = false ->
  receiveLoop logger (o :: rest)
  = (receiveCall logger o ++ coolDown logger o
       ++ (receiveLoop logger rest).1,
     (receiveLoop logger rest).2).
Proof.
  unfold endsLoop, coolDown, receiveCall. cbn [receiveLoop]. intros Hends.
  destruct (returned o) as [err |]; [| discriminate Hends].
  rewrite Hends. now destruct (receiveLoop logger rest).
Qed.

Lemma receiveLoop_exit logger (o : ReceiveOutcome)
      (rest : list ReceiveOutcome) :
  endsLoop o = true ->
  receiveLoop logger (o :: rest) = (receiveCall logger o, Exited).
Proof.
  unfold endsLoop, receiveCall. cbn [receiveLoop]. intros Hends.
  destruct (returned o) as [err |]; [now rewrite Hends | reflexivity].
Qed.

Lemma receiveLoop_failures logger (failures rest : list ReceiveOutcome) :
  Forall (fun o => endsLoop o = false) failures ->
  receiveLoop logger (failures ++ rest)
  = (flat_map (fun o => receiveCall logger o ++ coolDown logger o) failures
       ++ (receiveLoop logger rest).1,
     (receiveLoop logger rest).2).
Proof.
  induction 1 as [| o failures Ho _ IH]; cbn [app flat_map].
  - now destruct (receiveLoop logger rest).
  - rewrite (receiveLoop_retry _ _ _ Ho), IH. cbn [fst snd].
    now rewrite <- !app_assoc.
Qed.

Lemma receiveLoop_Exited logger (outcomes : list ReceiveOutcome) :
  (receiveLoop logger outcomes).2 = Exited ->
  Exists (fun o => endsLoop o = true) outcomes.
Proof.
  induction outcomes as [| o rest IH]; [discriminate |].
  destruct (endsLoop o) eqn:Hends.
  - intros _. now apply Exists_cons_hd.
  - rewrite (receiveLoop_retry _ _ _ Hends). cbn [snd].
    intros Hexit. apply Exists_cons_tl, IH, Hexit.
Qed.

(** C8. However many receive calls fail with an error other than the
    cancellation error, the goroutine is still in its loop: after each of
    them it has logged the failure, slept one minute and called receive
    again.  It leaves the loop at the first call that returns [nil] or the
    cancellation error, and then only calls [wg.Done()]; and it leaves the
    loop for no other reason. *)
Theorem receiver_retries_until_cancelled logger
        (failures : list ReceiveOutcome) :
  Forall (fun o => exists msg,
              returned o = Some (context.OtherError msg)) failures ->
  let retried :=
    flat_map
      (fun o =>
         receiveCall logger o
           ++ [Log (util.PrintError logger
                      ("Failed to receive from Google PubSub, retrying in 1 minute: "
                         +:+ context.Error (default context.Canceled (returned o))));
               Sleep (1 * GoTime.Minute)%Z])
      failures in
  receiver logger failures
  = (WgAdd 1 :: retried
       ++ [Log (util.PrintVerbose logger
                  "Initializing Google Pub/Sub handler")],
     Running)
  /\ (forall final rest,
        returned final = None \/ returned final = Some context.Canceled ->
        receiver logger (failures ++ final :: rest)
        = (WgAdd 1 :: retried ++ receiveCall logger final ++ [WgDone],
           Exited))
  /\ (forall outcomes,
        (receiver logger outcomes).2 = Exited ->
        Exists (fun o => returned o = None
                         \/ returned o = Some context.Canceled) outcomes).
Proof.
  intros Hfail retried.
  assert (Hends : Forall (fun o => endsLoop o = false) failures).
  { eapply Forall_impl; [exact Hfail |].
    intros o [msg Ho]. unfold endsLoop. now rewrite Ho. }
  assert (Hretried :
            flat_map (fun o => receiveCall logger o ++ coolDown logger o)
                     failures = retried).
  { subst retried. clear Hends.
    induction Hfail as [| o failures [msg Ho] _ IH]; [reflexivity |].
    cbn [flat_map]. rewrite IH. unfold coolDown. now rewrite Ho. }
  split; [| split].
  - unfold receiver. rewrite <- (app_nil_r failures).
    rewrite (receiveLoop_failures _ _ _ Hends), Hretried. reflexivity.
  - intros final rest Hfinal. unfold receiver.
    rewrite (receiveLoop_failures _ _ _ Hends), Hretried.
    rewrite receiveLoop_exit.
    + cbn [fst snd]. now rewrite <- app_assoc.
    + unfold endsLoop. now destruct Hfinal as [-> | ->].
  - intros outcomes Hexit. unfold receiver in Hexit.
    destruct (receiveLoop logger outcomes) as [trace status] eqn:Hloop.
    destruct status; [discriminate Hexit |].
    pose proof (receiveLoop_Exited logger outcomes) as Hex.
    rewrite Hloop in Hex. specialize (Hex eq_refl).
    eapply Exists_impl; [exact Hex |].
    intros o. unfold endsLoop.
    destruct (returned o) as [[| msg] |]; intros H;
      (discriminate H || (now left) || (now right)).
Qed.

(** ** Properties of the string routines *)

Lemma Count_append (a b : string) (sep : ascii) :
  GoStrings.Count (a +:+ b) sep
  = GoStrings.Count a sep + GoStrings.Count b sep.
Proof.
  induction a as [| c a IH]; [reflexivity |].
  change (String c a +:+ b) with (String c (a +:+ b)).
  cbn [GoStrings.Count]. rewrite IH. lia.
Qed.

(** [cut] splits at the first separator. *)
Lemma cut_first (a b : string) (sep : ascii) :
  GoStrings.Count a sep = 0 ->
  GoStrings.cut (a +:+ String sep b) sep = Some (a, b).
Proof.
  induction a as [| c a IH].
  - intros _. change (EmptyString +:+ String sep b) with (String sep b).
    cbn. now rewrite Ascii.eqb_refl.
  - change (String c a +:+ String sep b) with (String c (a +:+ String sep b)).
    cbn. destruct (Ascii.eqb c sep); [discriminate |].
    intros Ha. now rewrite (IH Ha).
Qed.

Lemma cut_none (s : string) (sep : ascii) :
  GoStrings.Count s sep = 0 -> GoStrings.cut s sep = None.
Proof.
  induction s as [| c s IH]; [reflexivity |]. cbn.
  destruct (Ascii.eqb c sep); [discriminate |].
  intros Hs. now rewrite (IH Hs).
Qed.

(** A string with a separator is what stands before the first one, the
    separator, and the rest. *)
Lemma Count_pos_split (s : string) (sep : ascii) (k : nat) :
  GoStrings.Count s sep = S k ->
  exists a b,
    s = a +:+ String sep b
    /\ GoStrings.Count a sep = 0 /\ GoStrings.Count b sep = k.
Proof.
  induction s as [| c s IH]; [discriminate |]. cbn.
  destruct (Ascii.eqb_spec c sep) as [-> | Hc].
  - intros [= Hs]. now exists EmptyString, s.
  - intros Hs. destruct (IH Hs) as (a & b & -> & Ha & Hb).
    exists (String c a), b. cbn.
    destruct (Ascii.eqb_spec c sep); [contradiction | now repeat split].
Qed.

(** With exactly three separators, [SplitN(s, sep, 4)] has four pieces and
    none of them holds a separator: the indices 1 and 3 of line 47 and 48
    are in range. *)
Lemma SplitN_four (s : string) (sep : ascii) :
  GoStrings.Count s sep = 3 ->
  exists a p b n,
    s = a +:+ String sep (p +:+ String sep (b +:+ String sep n))
    /\ GoStrings.SplitN s sep 4 = [a; p; b; n]
    /\ GoStrings.Count a sep = 0 /\ GoStrings.Count p sep = 0
    /\ GoStrings.Count b sep = 0 /\ GoStrings.Count n sep = 0.
Proof.
  intros Hs.
  destruct (Count_pos_split _ _ _ Hs) as (a & s1 & -> & Ha & Hs1).
  destruct (Count_pos_split _ _ _ Hs1) as (p & s2 & -> & Hp & Hs2).
  destruct (Count_pos_split _ _ _ Hs2) as (b & n & -> & Hb & Hn).
  exists a, p, b, n. repeat split; try assumption.
  cbn [GoStrings.SplitN].
  now rewrite (cut_first _ _ _ Ha), (cut_first _ _ _ Hp), (cut_first _ _ _ Hb).
Qed.


(** ** Properties of the adapter's setup *)

(** C7, as the code has it.  The setup call fails with the format error,
    having created no client and done nothing else, exactly when the
    subscription identifier does not hold three slashes.  An identifier
    with three slashes passes, whatever its first and third segments are,
    and its second and fourth segments are the project and the subscription
    name; for [projects/P/subscriptions/S] these are [P] and [S]. *)
Theorem setup_checks_slash_count (w : World) logger (cfg : ServerConfig) :
  let key := config.GcpPubsubSubscription cfg in
  (GoStrings.Count key slash <> 3 ->
   setupPubSubSubscriber w logger cfg
   = (w, [], Some (unsupportedFormat key)))
  /\ (GoStrings.Count key slash = 3 ->
      exists a project b name,
        key = a +:+ "/" +:+ project +:+ "/" +:+ b +:+ "/" +:+ name
        /\ GoStrings.Count project slash = 0
        /\ GoStrings.Count name slash = 0
        /\ setupPubSubSubscriber w logger cfg
           = startReceiver w logger cfg project name)
  /\ (forall project name,
        GoStrings.Count project slash = 0 ->
        GoStrings.Count name slash = 0 ->
        key = "projects/" +:+ project +:+ "/subscriptions/" +:+ name ->
        setupPubSubSubscriber w logger cfg
        = startReceiver w logger cfg project name).
Proof.
  intros key. unfold setupPubSubSubscriber. fold key.
  split; [| split].
  - intros Hcount. apply Nat.eqb_neq in Hcount. now rewrite Hcount.
  - intros Hcount. rewrite Hcount. cbn [Nat.eqb negb].
    destruct (SplitN_four _ _ Hcount)
      as (a & project & b & name & Hkey & -> & _ & Hp & _ & Hn).
    exists a, project, b, name. repeat split; assumption.
  - intros project name Hp Hn Hkey.
    assert (Hcount : GoStrings.Count key slash = 3).
    { rewrite Hkey.
      change ("projects/" +:+ project +:+ "/subscriptions/" +:+ name)
        with ("projects" +:+ String slash
                (project +:+ String slash
                   ("subscriptions" +:+ String slash name))).
      rewrite Count_append. cbn [GoStrings.Count].
      rewrite Count_append. cbn [GoStrings.Count]. rewrite Count_append.
      cbn. rewrite Hp, Hn. reflexivity. }
    rewrite Hcount. cbn [Nat.eqb negb]. rewrite Hkey.
    change ("projects/" +:+ project +:+ "/subscriptions/" +:+ name)
      with ("projects" +:+ String slash
              (project +:+ String slash
                 ("subscriptions" +:+ String slash name))).
    cbn [GoStrings.SplitN].
    rewrite (cut_first "projects" _ slash eq_refl).
    rewrite (cut_first project _ slash Hp).
    rewrite (cut_first "subscriptions" _ slash eq_refl).
    reflexivity.
Qed.

(** ** Properties of the coordinator *)

Lemma receiversFor_app key (t1 t2 : list SetupEffect) :
  receiversFor key (t1 ++ t2) = receiversFor key t1 ++ receiversFor key t2.
Proof. apply List.filter_app. Qed.

(** The setup call either starts one receiver, for its own configuration, or
    returns an error and starts none. *)
Lemma setupPubSubSubscriber_cases (w : World) logger (cfg : ServerConfig) :
  (exists w' said client subID,
      setupPubSubSubscriber w logger cfg
      = (w', [SetupLog said; GoReceiver cfg logger client subID], None))
  \/ (exists w' effects err,
        setupPubSubSubscriber w logger cfg = (w', effects, Some err)
        /\ forall key, receiversFor key effects = []).
Proof.
  unfold setupPubSubSubscriber.
  destruct (negb _).
  - right. now eexists _, _, _.
  - unfold startReceiver.
    destruct (clientOptions logger cfg) as [opts said].
    destruct (pubsub_NewClient w _ opts) as [w' [client | err]].
    + left. now eexists _, _, _, _.
    + right. now eexists _, _, _.
Qed.

(** The three ways a turn of the loop can go: the server is passed over; a
    receiver is started and the identifier recorded; the setup call fails
    and the map stays as it is. *)
Lemma subscribe_cases (testRun : bool) logger (server : Server)
      (st : SetupState) :
  let key := config.GcpPubsubSubscription (state.Config server) in
  let prefixedLogger :=
    util.WithPrefix logger (config.SectionName (state.Config server)) in
  ((key = "" \/ is_Some (gcpPubSubHandlers st !! key))
   /\ subscribe testRun logger server st = (st, [], None))
  \/ (key <> "" /\ gcpPubSubHandlers st !! key = None
      /\ exists w' said client subID,
          subscribe testRun logger server st
          = ({| world := w';
                gcpPubSubHandlers := <[key := true]> (gcpPubSubHandlers st) |},
             [SetupLog said;
              GoReceiver (state.Config server) prefixedLogger client subID],
             None))
  \/ (key <> "" /\ gcpPubSubHandlers st !! key = None
      /\ exists w' effects err,
          setupPubSubSubscriber (world st) prefixedLogger (state.Config server)
          = (w', effects, Some err)
          /\ (forall k, receiversFor k effects = [])
          /\ subscribe testRun logger server st
             = ({| world := w'; gcpPubSubHandlers := gcpPubSubHandlers st |},
                if testRun then effects
                else effects
                       ++ [SetupLog
                             (util.PrintWarning prefixedLogger
                                ("Skipping logs, could not setup log subscriber: "
                                   +:+ err))],
                if testRun then Some err else None)).
Proof.
  intros key prefixedLogger. unfold subscribe. fold key prefixedLogger.
  destruct (String.eqb_spec key "") as [Hkey | Hkey]; cbn [negb].
  { left. split; [now left | reflexivity]. }
  destruct (gcpPubSubHandlers st !! key) as [b |] eqn:Hlookup.
  { left. split; [right; now exists b | reflexivity]. }
  right.
  destruct (setupPubSubSubscriber_cases (world st) prefixedLogger
              (state.Config server))
    as [(w' & said & client & subID & ->) | (w' & effects & err & -> & Hnone)].
  - left. repeat split; try assumption. now eexists _, _, _, _.
  - right. repeat split; try assumption.
    exists w', effects, err. repeat split; try assumption.
    now destruct testRun.
Qed.

(** The case split of [subscribe_cases], with the result of the turn
    rewritten in the goal. *)
Ltac turn_cases testRun logger server st :=
  destruct (subscribe_cases testRun logger server st)
    as [[_ ->] | [(_ & Hunrecorded & w' & said & client & subID & ->)
                 | (_ & _ & w' & effects & err & _ & Hfree & ->)]];
  cbn [fst snd gcpPubSubHandlers].

(** One turn of the loop, seen from one identifier: a recorded identifier
    stays recorded and gets no receiver; an unrecorded one either stays
    unrecorded and gets none, or is recorded and gets exactly one. *)
Lemma subscribe_recorded (testRun : bool) logger (server : Server)
      (st : SetupState) (key : string) (b : bool) :
  gcpPubSubHandlers st !! key = Some b ->
  gcpPubSubHandlers (subscribe testRun logger server st).1.1 !! key = Some b
  /\ receiversFor key (subscribe testRun logger server st).1.2 = [].
Proof.
  intros Hrec. turn_cases testRun logger server st.
  - now split.
  - assert (Hne : config.GcpPubsubSubscription (state.Config server) <> key)
      by congruence.
    split; [now rewrite lookup_insert_ne |].
    cbn. apply String.eqb_neq in Hne. now rewrite Hne.
  - split; [assumption |].
    destruct testRun; [apply Hfree |].
    now rewrite receiversFor_app, Hfree.
Qed.

Lemma subscribe_unrecorded (testRun : bool) logger (server : Server)
      (st : SetupState) (key : string) :
  gcpPubSubHandlers st !! key = None ->
  (gcpPubSubHandlers (subscribe testRun logger server st).1.1 !! key = None
   /\ receiversFor key (subscribe testRun logger server st).1.2 = [])
  \/ (gcpPubSubHandlers (subscribe testRun logger server st).1.1 !! key
      = Some true
      /\ length (receiversFor key (subscribe testRun logger server st).1.2)
         = 1).
Proof.
  intros Hnone. turn_cases testRun logger server st.
  - left. now split.
  - destruct (decide (config.GcpPubsubSubscription (state.Config server) = key))
      as [Heq | Hne].
    + right. rewrite Heq, lookup_insert_eq. split; [reflexivity |].
      cbn. rewrite Heq, String.eqb_refl. reflexivity.
    + left. rewrite lookup_insert_ne by exact Hne. split; [assumption |].
      cbn. apply String.eqb_neq in Hne. now rewrite Hne.
  - left. split; [assumption |].
    destruct testRun; [apply Hfree |].
    now rewrite receiversFor_app, Hfree.
Qed.

(** The loop unfolded by one turn. *)
Lemma subscribeServers_cons (testRun : bool) logger (server : Server)
      (rest : list Server) (st : SetupState) :
  subscribeServers testRun logger (server :: rest) st
  = match (subscribe testRun logger server st).2 with
    | Some err => subscribe testRun logger server st
    | None =>
        after (subscribe testRun logger server st).1.2
          (subscribeServers testRun logger rest
             (subscribe testRun logger server st).1.1)
    end.
Proof.
  cbn [subscribeServers].
  now destruct (subscribe testRun logger server st) as [[st' effects] [err |]].
Qed.

Lemma subscribeServers_recorded (testRun : bool) logger
      (servers : list Server) (st : SetupState) (key : string) (b : bool) :
  gcpPubSubHandlers st !! key = Some b ->
  gcpPubSubHandlers (subscribeServers testRun logger servers st).1.1 !! key
  = Some b
  /\ receiversFor key (subscribeServers testRun logger servers st).1.2 = [].
Proof.
  revert st. induction servers as [| server rest IH]; intros st Hrec.
  - now split.
  - rewrite subscribeServers_cons.
    destruct (subscribe_recorded testRun logger server st key b Hrec)
      as [Hrec' Hfree].
    destruct (subscribe testRun logger server st).2; [now split |].
    destruct (IH _ Hrec') as [Hrec'' Hfree'].
    unfold after. cbn [fst snd]. split; [assumption |].
    now rewrite receiversFor_app, Hfree, Hfree'.
Qed.

Lemma subscribeServers_unrecorded (testRun : bool) logger
      (servers : list Server) (st : SetupState) (key : string) :
  gcpPubSubHandlers st !! key = None ->
  (gcpPubSubHandlers (subscribeServers testRun logger servers st).1.1 !! key
   = None
   /\ receiversFor key (subscribeServers testRun logger servers st).1.2 = [])
  \/ (gcpPubSubHandlers (subscribeServers testRun logger servers st).1.1 !! key
      = Some true
      /\ length
           (receiversFor key (subscribeServers testRun logger servers st).1.2)
         = 1).
Proof.
  revert st. induction servers as [| server rest IH]; intros st Hnone.
  - left. now split.
  - rewrite subscribeServers_cons.
    destruct (subscribe_unrecorded testRun logger server st key Hnone)
      as [[Hnone' Hfree] | [Hrec Hone]].
    + destruct (subscribe testRun logger server st).2; [left; now split |].
      unfold after. cbn [fst snd]. rewrite receiversFor_app, Hfree.
      exact (IH _ Hnone').
    + right.
      destruct (subscribe testRun logger server st).2; [now split |].
      destruct (subscribeServers_recorded testRun logger rest _ key true Hrec)
        as [Hrec' Hfree].
      unfold after. cbn [fst snd]. split; [assumption |].
      now rewrite receiversFor_app, Hfree, app_nil_r.
Qed.

Lemma after_after {A : Type} (e1 e2 : list SetupEffect)
      (r : A * list SetupEffect * option string) :
  after e1 (after e2 r) = after (e1 ++ e2) r.
Proof. unfold after. cbn. now rewrite app_assoc. Qed.

Lemma after_nil {A : Type} (r : A * list SetupEffect * option string) :
  after [] r = r.
Proof. now destruct r as [[a effects] err]. Qed.

(** The loop over two lists of servers, one after the other. *)
Lemma subscribeServers_app (testRun : bool) logger (a b : list Server)
      (st : SetupState) :
  subscribeServers testRun logger (a ++ b) st
  = match (subscribeServers testRun logger a st).2 with
    | Some err => subscribeServers testRun logger a st
    | None =>
        after (subscribeServers testRun logger a st).1.2
          (subscribeServers testRun logger b
             (subscribeServers testRun logger a st).1.1)
    end.
Proof.
  revert st. induction a as [| server a IH]; intros st.
  - cbn. now rewrite after_nil.
  - cbn [app]. rewrite !subscribeServers_cons.
    destruct (subscribe testRun logger server st) as [[st' effects] [err |]];
      cbn [fst snd]; [reflexivity |].
    rewrite IH.
    destruct (subscribeServers testRun logger a st') as [[st'' seen] [err |]];
      cbn [fst snd]; [reflexivity |].
    unfold after at 2 3. cbn [fst snd]. apply after_after.
Qed.

(** Outside a test run no turn of the loop returns an error. *)
Lemma subscribe_normal logger (server : Server) (st : SetupState) :
  (subscribe false logger server st).2 = None.
Proof.
  turn_cases false logger server st; reflexivity.
Qed.

Lemma subscribeServers_normal logger (servers : list Server)
      (st : SetupState) :
  (subscribeServers false logger servers st).2 = None.
Proof.
  revert st. induction servers as [| server rest IH]; intros st;
    [reflexivity |].
  rewrite subscribeServers_cons, subscribe_normal. apply IH.
Qed.

(** A turn for a server with another identifier leaves an identifier as it
    is in the map. *)
Lemma subscribe_other (testRun : bool) logger (server : Server)
      (st : SetupState) (key : string) :
  config.GcpPubsubSubscription (state.Config server) <> key ->
  gcpPubSubHandlers (subscribe testRun logger server st).1.1 !! key
  = gcpPubSubHandlers st !! key.
Proof.
  intros Hne. turn_cases testRun logger server st; try reflexivity.
  now rewrite lookup_insert_ne.
Qed.

Lemma subscribeServers_other (testRun : bool) logger (servers : list Server)
      (st : SetupState) (key : string) :
  Forall (fun server =>
            config.GcpPubsubSubscription (state.Config server) <> key)
         servers ->
  gcpPubSubHandlers (subscribeServers testRun logger servers st).1.1 !! key
  = gcpPubSubHandlers st !! key.
Proof.
  intros Hother. revert st.
  induction Hother as [| server rest Hne _ IH]; intros st; [reflexivity |].
  rewrite subscribeServers_cons.
  pose proof (subscribe_other testRun logger server st key Hne) as Hsame.
  destruct (subscribe testRun logger server st).2; [exact Hsame |].
  unfold after. cbn [fst snd]. now rewrite IH.
Qed.

(** When the loop runs to its end and the setup call cannot fail for an
    identifier that some server names, the identifier ends up recorded. *)
Lemma subscribeServers_reaches (testRun : bool) logger
      (servers : list Server) (st : SetupState) (key : string) :
  key <> "" ->
  (exists server,
      server ∈ servers
      /\ config.GcpPubsubSubscription (state.Config server) = key) ->
  (subscribeServers testRun logger servers st).2 = None ->
  (forall w' logger' (cfg : ServerConfig),
      config.GcpPubsubSubscription cfg = key ->
      (setupPubSubSubscriber w' logger' cfg).2 = None) ->
  is_Some
    (gcpPubSubHandlers (subscribeServers testRun logger servers st).1.1
       !! key).
Proof.
  intros Hkey Hnamed Hrun Hgood. revert st Hnamed Hrun.
  induction servers as [| server rest IH]; intros st (named & Hin & Hname) Hrun.
  { now apply elem_of_nil in Hin. }
  rewrite subscribeServers_cons in Hrun |- *.
  assert (Hrest : forall st',
             gcpPubSubHandlers st' !! key = None ->
             named ∈ rest ->
             (subscribeServers testRun logger rest st').2 = None ->
             is_Some (gcpPubSubHandlers
                        (subscribeServers testRun logger rest st').1.1 !! key)).
  { intros st' _ Hin' Hrun'. apply IH; [now exists named | exact Hrun']. }
  assert (Hkept : forall st' b,
             gcpPubSubHandlers st' !! key = Some b ->
             is_Some (gcpPubSubHandlers
                        (subscribeServers testRun logger rest st').1.1 !! key)).
  { intros st' b Hrec. exists b.
    apply (subscribeServers_recorded testRun logger rest st' key b Hrec). }
  apply elem_of_cons in Hin as [-> | Hin].
  - (* the first server names the identifier *)
    destruct (subscribe_cases testRun logger server st)
      as [[Hskip Hsub] | [(_ & _ & w' & said & client & subID & Hsub)
                         | (_ & _ & w' & effects & err & Hsetup & _ & _)]].
    + rewrite Hsub in *. cbn [fst snd] in *. unfold after. cbn [fst snd].
      rewrite Hname in Hskip. destruct Hskip as [Hempty | [b Hrec]];
        [contradiction | exact (Hkept _ b Hrec)].
    + rewrite Hsub in *. cbn [fst snd] in *. unfold after. cbn [fst snd].
      apply (Hkept _ true). cbn. rewrite Hname. apply lookup_insert_eq.
    + specialize (Hgood (world st)
                    (util.WithPrefix logger
                       (config.SectionName (state.Config server)))
                    (state.Config server) Hname).
      rewrite Hsetup in Hgood. discriminate Hgood.
  - (* a later server names it *)
    destruct (subscribe testRun logger server st) as [[st' effects] [err |]];
      cbn [fst snd] in *; [discriminate Hrun |].
    unfold after in *. cbn [fst snd] in *.
    destruct (gcpPubSubHandlers st' !! key) as [b |] eqn:Hlookup.
    + exact (Hkept _ b Hlookup).
    + exact (Hrest _ Hlookup Hin Hrun).
Qed.

(** What [SetupLogSubscriber] adds before the loop holds no receiver. *)
Lemma SetupLogSubscriber_receivers (w : World) opts logger
      (servers : list Server) (key : string) :
  receiversFor key (SetupLogSubscriber w opts logger servers).1.2
  = receiversFor key
      (subscribeServers (state.TestRun opts) logger servers
         {| world := w; gcpPubSubHandlers := ∅ |}).1.2.
Proof. reflexivity. Qed.

(** C4. For every subscription identifier, however many servers name it,
    [SetupLogSubscriber] starts at most one receiver: it has started exactly
    one when the identifier ends up in the map and none otherwise; from the
    moment an identifier is in the map the loop starts no receiver for it,
    whatever servers follow; and when the run reaches its end and the setup
    call for the identifier does not fail, exactly one has been started. *)
Theorem one_receiver_per_subscription (w : World) opts logger
        (servers : list Server) (key : string) :
  let run := SetupLogSubscriber w opts logger servers in
  length (receiversFor key run.1.2) <= 1
  /\ (length (receiversFor key run.1.2) = 1
      <-> gcpPubSubHandlers run.1.1 !! key = Some true)
  /\ (forall testRun st later b,
        gcpPubSubHandlers st !! key = Some b ->
        receiversFor key (subscribeServers testRun logger later st).1.2 = [])
  /\ (key <> "" ->
      (exists server,
          server ∈ servers
          /\ config.GcpPubsubSubscription (state.Config server) = key) ->
      run.2 = None ->
      (forall w' logger' (cfg : ServerConfig),
          config.GcpPubsubSubscription cfg = key ->
          (setupPubSubSubscriber w' logger' cfg).2 = None) ->
      length (receiversFor key run.1.2) = 1).
Proof.
  intros run. subst run. rewrite SetupLogSubscriber_receivers.
  unfold SetupLogSubscriber, after. cbn [fst snd].
  set (st0 := {| world := w; gcpPubSubHandlers := ∅ |}).
  assert (Hnone : gcpPubSubHandlers st0 !! key = None) by apply lookup_empty.
  pose proof (subscribeServers_unrecorded (state.TestRun opts) logger servers
                st0 key Hnone) as Hcases.
  split; [| split; [| split]].
  - destruct Hcases as [[_ ->] | [_ ->]]; cbn; lia.
  - destruct Hcases as [[Hnot Hfree] | [Hrec Hone]].
    + rewrite Hfree, Hnot. cbn. split; discriminate.
    + rewrite Hone, Hrec. now split.
  - intros testRun st later b Hrec.
    apply (subscribeServers_recorded testRun logger later st key b Hrec).
  - intros Hkey Hnamed Hrun Hgood.
    destruct (subscribeServers_reaches _ logger servers st0 key
                Hkey Hnamed Hrun Hgood) as [b Hrec].
    destruct Hcases as [[Hnot _] | [_ Hone]]; [congruence | exact Hone].
Qed.

(** C6. When the setup call fails for a server, a test run returns that
    error at once, and the servers that follow are not looked at; outside a
    test run the loop logs a warning with the error, leaves the map as it is,
    goes on with the servers that follow, and [SetupLogSubscriber] returns no
    error. *)
Theorem setup_failure_policy (w : World) opts logger
        (before : list Server) (server : Server) (rest : list Server)
        (st : SetupState) (seen : list SetupEffect)
        (w' : World) (effects : list SetupEffect) (err : string) :
  let key := config.GcpPubsubSubscription (state.Config server) in
  let prefixedLogger :=
    util.WithPrefix logger (config.SectionName (state.Config server)) in
  let st' := {| world := w'; gcpPubSubHandlers := gcpPubSubHandlers st |} in
  subscribeServers (state.TestRun opts) logger before
    {| world := w; gcpPubSubHandlers := ∅ |} = (st, seen, None) ->
  key <> "" ->
  gcpPubSubHandlers st !! key = None ->
  setupPubSubSubscriber (world st) prefixedLogger (state.Config server)
  = (w', effects, Some err) ->
  (state.TestRun opts = true ->
   SetupLogSubscriber w opts logger (before ++ server :: rest)
   = (st',
      setupLogTransformer (before ++ server :: rest) logger
        ++ seen ++ effects,
      Some err))
  /\ (state.TestRun opts = false ->
      SetupLogSubscriber w opts logger (before ++ server :: rest)
      = after
          (setupLogTransformer (before ++ server :: rest) logger
             ++ seen ++ effects
             ++ [SetupLog
                   (util.PrintWarning prefixedLogger
                      ("Skipping logs, could not setup log subscriber: "
                         +:+ err))])
          (subscribeServers false logger rest st')
      /\ (SetupLogSubscriber w opts logger (before ++ server :: rest)).2
         = None).
Proof.
  intros key prefixedLogger st' Hbefore Hkey Hnone Hsetup.
  assert (Hturn : subscribe (state.TestRun opts) logger server st
                  = (st',
                     if state.TestRun opts then effects
                     else effects
                            ++ [SetupLog
                                  (util.PrintWarning prefixedLogger
                                     ("Skipping logs, could not setup log subscriber: "
                                        +:+ err))],
                     if state.TestRun opts then Some err else None)).
  { unfold subscribe. fold key prefixedLogger.
    apply String.eqb_neq in Hkey. rewrite Hkey. cbn [negb].
    rewrite Hnone, Hsetup. now destruct (state.TestRun opts). }
  unfold SetupLogSubscriber.
  rewrite subscribeServers_app, Hbefore. cbn [fst snd].
  rewrite subscribeServers_cons, Hturn. cbn [fst snd].
  split; intros Hmode; rewrite Hmode.
  - unfold after. cbn [fst snd]. reflexivity.
  - rewrite !after_after. split.
    + f_equal; cbn [app]; now rewrite <- ?app_assoc.
    + unfold after. cbn [fst snd]. apply subscribeServers_normal.
Qed.

(** C10. An identifier is put into the map only by a setup call that
    succeeded: whenever it is in the map at the end, exactly one receiver was
    started for it.  Outside a test run, a failed setup call leaves the
    identifier out of the map, it is still out when servers with other
    identifiers have had their turn, and the next server that names it gets a
    setup call of its own. *)
Theorem failed_setup_is_not_recorded (w : World) opts logger
        (before : list Server) (server1 : Server) (between : list Server)
        (server2 : Server) (rest : list Server)
        (w1 : World) (effects1 : list SetupEffect) (err1 : string) :
  let key := config.GcpPubsubSubscription (state.Config server1) in
  let logger1 :=
    util.WithPrefix logger (config.SectionName (state.Config server1)) in
  let logger2 :=
    util.WithPrefix logger (config.SectionName (state.Config server2)) in
  let st :=
    (subscribeServers false logger before
       {| world := w; gcpPubSubHandlers := ∅ |}).1.1 in
  let st1 := {| world := w1; gcpPubSubHandlers := gcpPubSubHandlers st |} in
  let st2 := (subscribeServers false logger between st1).1.1 in
  state.TestRun opts = false ->
  key <> "" ->
  config.GcpPubsubSubscription (state.Config server2) = key ->
  gcpPubSubHandlers st !! key = None ->
  setupPubSubSubscriber (world st) logger1 (state.Config server1)
  = (w1, effects1, Some err1) ->
  Forall (fun server =>
            config.GcpPubsubSubscription (state.Config server) <> key)
         between ->
  (subscribe false logger server1 st).1.1 = st1
  /\ gcpPubSubHandlers st2 !! key = None
  /\ subscribe false logger server2 st2
     = match setupPubSubSubscriber (world st2) logger2
               (state.Config server2) with
       | (w3, effects3, Some err3) =>
           ({| world := w3; gcpPubSubHandlers := gcpPubSubHandlers st2 |},
            effects3
              ++ [SetupLog
                    (util.PrintWarning logger2
                       ("Skipping logs, could not setup log subscriber: "
                          +:+ err3))],
            None)
       | (w3, effects3, None) =>
           ({| world := w3;
               gcpPubSubHandlers := <[key := true]> (gcpPubSubHandlers st2) |},
            effects3, None)
       end
  /\ (SetupLogSubscriber w opts logger
        (before ++ server1 :: between ++ server2 :: rest)).1.1
     = (subscribeServers false logger rest
          (subscribe false logger server2 st2).1.1).1.1
  /\ (forall (servers : list Server) k b,
        gcpPubSubHandlers (SetupLogSubscriber w opts logger servers).1.1 !! k
        = Some b ->
        b = true
        /\ length
             (receiversFor k (SetupLogSubscriber w opts logger servers).1.2)
           = 1).
Proof.
  intros key logger1 logger2 st st1 st2 Hmode Hkey Hkey2 Hnone Hsetup Hother.
  assert (Hturn1 : subscribe false logger server1 st
                   = (st1,
                      effects1
                        ++ [SetupLog
                              (util.PrintWarning logger1
                                 ("Skipping logs, could not setup log subscriber: "
                                    +:+ err1))],
                      None)).
  { unfold subscribe. fold key logger1.
    pose proof Hkey as Hkey'. apply String.eqb_neq in Hkey'.
    rewrite Hkey'. cbn [negb]. now rewrite Hnone, Hsetup. }
  assert (Hnone2 : gcpPubSubHandlers st2 !! key = None).
  { subst st2. now rewrite subscribeServers_other. }
  split; [now rewrite Hturn1 |]. split; [exact Hnone2 |]. split; [| split].
  - unfold subscribe. fold logger2. rewrite Hkey2.
    pose proof Hkey as Hkey'. apply String.eqb_neq in Hkey'.
    rewrite Hkey'. cbn [negb]. rewrite Hnone2. reflexivity.
  - unfold SetupLogSubscriber. rewrite Hmode. unfold after at 1. cbn [fst snd].
    rewrite subscribeServers_app, subscribeServers_normal. fold st.
    unfold after at 1. cbn [fst snd].
    rewrite subscribeServers_cons, Hturn1. cbn [fst snd].
    unfold after at 1. cbn [fst snd].
    rewrite subscribeServers_app, subscribeServers_normal. fold st2.
    unfold after at 1. cbn [fst snd].
    rewrite subscribeServers_cons, subscribe_normal.
    unfold after at 1. cbn [fst snd]. reflexivity.
  - intros servers k b Hrec.
    unfold SetupLogSubscriber, after in *. cbn [fst snd] in *.
    destruct (subscribeServers_unrecorded (state.TestRun opts) logger servers
                {| world := w; gcpPubSubHandlers := ∅ |} k (lookup_empty k))
      as [[Hnot _] | [Hrec' Hone]]; [congruence |].
    split; [congruence | exact Hone].
Qed.

(** ** More on the adapter's callback *)

(** Breaks the guards of [onMessage] open, one after the other. *)
Ltac callback_cases :=
  repeat match goal with
         | |- context [match json_Unmarshal ?d with _ => _ end] =>
             destruct (json_Unmarshal d) as [? | ?] eqn:?
         | |- context [if ?b then _ else _] => destruct b eqn:?
         | |- context [match ?o with Some _ => _ | None => _ end] =>
             destruct o eqn:?
         end.

(** X1. Whatever the payload, the callback acknowledges the message before
    anything else, acknowledges it once, and puts at most one record on the
    channel. *)
Theorem onMessage_acks_first_and_once logger (data : string) :
  (exists rest, onMessage logger data = Ack :: rest)
  /\ acks (onMessage logger data) = 1
  /\ length (sends (onMessage logger data)) <= 1.
Proof.
  unfold onMessage. split; [now eexists |].
  callback_cases; cbn; split; lia.
Qed.




(** ** More on the receive loop *)

Lemma sends_app (t1 t2 : list AdapterEffect) :
  sends (t1 ++ t2) = sends t1 ++ sends t2.
Proof. apply omap_app. Qed.

Lemma acks_app (t1 t2 : list AdapterEffect) :
  acks (t1 ++ t2) = acks t1 + acks t2.
Proof. unfold acks. now rewrite List.filter_app, length_app. Qed.

Lemma onMessage_acks logger (data : string) :
  acks (onMessage logger data) = 1.
Proof. unfold onMessage. callback_cases; reflexivity. Qed.

Lemma onMessage_no_wait_group logger (data : string) :
  List.filter isWaitGroup (onMessage logger data) = [].
Proof. unfold onMessage. callback_cases; reflexivity. Qed.

(** What one receive call leaves in the trace. *)
Lemma receiveCall_acks logger (o : ReceiveOutcome) :
  acks (receiveCall logger o) = length (delivered o).
Proof.
  unfold receiveCall.
  change (acks (Log ?e :: ?t)) with (acks t).
  induction (delivered o) as [| data rest IH]; [reflexivity |].
  cbn [flat_map]. rewrite acks_app, onMessage_acks, IH. reflexivity.
Qed.

Lemma receiveCall_sends logger (o : ReceiveOutcome) :
  sends (receiveCall logger o)
  = flat_map (fun data => sends (onMessage logger data)) (delivered o).
Proof.
  unfold receiveCall.
  change (sends (Log ?e :: ?t)) with (sends t).
  induction (delivered o) as [| data rest IH]; [reflexivity |].
  cbn [flat_map]. now rewrite sends_app, IH.
Qed.

Lemma receiveCall_wait_group logger (o : ReceiveOutcome) :
  List.filter isWaitGroup (receiveCall logger o) = [].
Proof.
  unfold receiveCall. cbn [List.filter isWaitGroup].
  induction (delivered o) as [| data rest IH]; [reflexivity |].
  cbn [flat_map]. now rewrite List.filter_app, onMessage_no_wait_group, IH.
Qed.

Lemma coolDown_quiet logger (o : ReceiveOutcome) :
  acks (coolDown logger o) = 0
  /\ sends (coolDown logger o) = []
  /\ List.filter isWaitGroup (coolDown logger o) = [].
Proof. unfold coolDown. now destruct (returned o). Qed.

(** The loop's trace read three ways. *)
Lemma receiveLoop_reading logger (outcomes : list ReceiveOutcome) :
  acks (receiveLoop logger outcomes).1
  = length (flat_map delivered (consumed outcomes))
  /\ sends (receiveLoop logger outcomes).1
     = flat_map (fun data => sends (onMessage logger data))
                (flat_map delivered (consumed outcomes))
  /\ List.filter isWaitGroup (receiveLoop logger outcomes).1 = [].
Proof.
  induction outcomes as [| o rest (IHacks & IHsends & IHwg)];
    [now repeat split |].
  cbn [consumed]. destruct (endsLoop o) eqn:Hends.
  - rewrite (receiveLoop_exit _ _ _ Hends). cbn [fst flat_map].
    rewrite app_nil_r, receiveCall_acks, receiveCall_sends.
    repeat split. apply receiveCall_wait_group.
  - rewrite (receiveLoop_retry _ _ _ Hends). cbn [fst flat_map].
    destruct (coolDown_quiet logger o) as (Hacks & Hsends & Hwg).
    rewrite !acks_app, !sends_app, !List.filter_app, !flat_map_app.
    rewrite Hacks, Hsends, Hwg, IHacks, IHsends, IHwg.
    rewrite receiveCall_acks, receiveCall_sends, receiveCall_wait_group.
    rewrite length_app. now repeat split.
Qed.

Lemma receiveLoop_status logger (outcomes : list ReceiveOutcome) :
  (receiveLoop logger outcomes).2 = Exited
  <-> Exists (fun o => endsLoop o = true) outcomes.
Proof.
  split; [apply receiveLoop_Exited |].
  induction outcomes as [| o rest IH]; intros Hex.
  - now apply Exists_nil in Hex.
  - destruct (endsLoop o) eqn:Hends.
    + now rewrite (receiveLoop_exit _ _ _ Hends).
    + rewrite (receiveLoop_retry _ _ _ Hends). cbn [snd]. apply IH.
      apply Exists_cons in Hex as [Hhead | Htail];
        [congruence | exact Htail].
Qed.


(** X6. The goroutine adds one to the wait group before anything else and
    touches it again only to call [Done], once, as its last step, and only
    when it has left the loop; it has left the loop exactly when some receive
    call returned [nil] or the cancellation error. *)
Theorem receiver_wait_group_balanced logger (outcomes : list ReceiveOutcome) :
  exists body,
    (receiver logger outcomes).1
    = WgAdd 1 :: body
        ++ match (receiver logger outcomes).2 with
           | Exited => [WgDone]
           | Running => []
           end
    /\ List.filter isWaitGroup body = []
    /\ ((receiver logger outcomes).2 = Exited
        <-> Exists (fun o => returned o = None
                             \/ returned o = Some context.Canceled) outcomes).
Proof.
  destruct (receiveLoop_reading logger outcomes) as (_ & _ & Hwg).
  pose proof (receiveLoop_status logger outcomes) as Hstatus.
  assert (Hends : forall o, endsLoop o = true
                            <-> returned o = None
                                \/ returned o = Some context.Canceled).
  { intros o. unfold endsLoop.
    destruct (returned o) as [[| msg] |]; cbn; intuition congruence. }
  unfold receiver.
  destruct (receiveLoop logger outcomes) as [trace status]; cbn [fst snd] in *.
  exists trace. destruct status; cbn [fst snd].
  - rewrite app_nil_r. repeat split; try assumption; try discriminate.
    intros Hex. apply Hstatus.
    eapply Exists_impl; [exact Hex |]. intros o. apply Hends.
  - repeat split; try assumption.
    intros _. eapply Exists_impl; [now apply Hstatus |].
    intros o. apply Hends.
Qed.

(** ** More on the adapter's setup *)

(** The three ways the setup call can go. *)
Lemma setupPubSubSubscriber_shape (w : World) logger (cfg : ServerConfig) :
  let key := config.GcpPubsubSubscription cfg in
  let idParts := GoStrings.SplitN key slash 4 in
  (GoStrings.Count key slash <> 3
   /\ setupPubSubSubscriber w logger cfg
      = (w, [], Some (unsupportedFormat key)))
  \/ (GoStrings.Count key slash = 3
      /\ exists w' err,
          pubsub_NewClient w (GoStrings.index idParts 1)
                           (clientOptions logger cfg).1 = (w', inr err)
          /\ setupPubSubSubscriber w logger cfg
             = (w', [SetupLog (clientOptions logger cfg).2],
                Some ("Failed to create Google PubSub client: " +:+ err)))
  \/ (GoStrings.Count key slash = 3
      /\ exists w' client,
          pubsub_NewClient w (GoStrings.index idParts 1)
                           (clientOptions logger cfg).1 = (w', inl client)
          /\ setupPubSubSubscriber w logger cfg
             = (w',
                [SetupLog (clientOptions logger cfg).2;
                 GoReceiver cfg logger client (GoStrings.index idParts 3)],
                None)).
Proof.
  intros key idParts. unfold setupPubSubSubscriber. fold key.
  destruct (Nat.eqb_spec (GoStrings.Count key slash) 3) as [Hcount | Hcount];
    cbn [negb]; [| now left].
  right. fold idParts. unfold startReceiver.
  destruct (clientOptions logger cfg) as [opts said]. cbn [fst snd].
  destruct (pubsub_NewClient w (GoStrings.index idParts 1) opts)
    as [w' [client | err]].
  - right. split; [assumption |]. now exists w', client.
  - left. split; [assumption |]. now exists w', err.
Qed.

(** X7. The provider is asked for a client only when the identifier holds
    three slashes, and then once: for the project that is the second segment,
    with the credentials file as the only option when one is configured and
    no option otherwise.  The call fails exactly when the provider does, and
    only a call that succeeds starts a goroutine, one, for the fourth
    segment. *)
Theorem setup_asks_provider_once (w : World) logger (cfg : ServerConfig) :
  GoStrings.Count (config.GcpPubsubSubscription cfg) slash = 3 ->
  let idParts := GoStrings.SplitN (config.GcpPubsubSubscription cfg) slash 4 in
  let opts :=
    if String.eqb (config.GcpCredentialsFile cfg) "" then []
    else [WithCredentialsFile (config.GcpCredentialsFile cfg)] in
  let asked := pubsub_NewClient w (GoStrings.index idParts 1) opts in
  (setupPubSubSubscriber w logger cfg).1.1 = asked.1
  /\ match asked.2 with
     | inl client =>
         (setupPubSubSubscriber w logger cfg).2 = None
         /\ List.filter isGoReceiver (setupPubSubSubscriber w logger cfg).1.2
            = [GoReceiver cfg logger client (GoStrings.index idParts 3)]
     | inr err =>
         (setupPubSubSubscriber w logger cfg).2
         = Some ("Failed to create Google PubSub client: " +:+ err)
         /\ List.filter isGoReceiver (setupPubSubSubscriber w logger cfg).1.2
            = []
     end.
Proof.
  intros Hcount idParts opts asked.
  assert (Hopts : (clientOptions logger cfg).1 = opts).
  { unfold clientOptions. subst opts.
    now destruct (String.eqb (config.GcpCredentialsFile cfg) ""). }
  destruct (setupPubSubSubscriber_shape w logger cfg)
    as [[Hbad _] | [(_ & w' & err & Hasked & ->)
                   | (_ & w' & client & Hasked & ->)]];
    [contradiction | |];
    rewrite Hopts in Hasked; fold idParts asked in Hasked; rewrite Hasked;
    now repeat split.
Qed.

(** X8. Of a server's configuration the setup call reads the subscription
    identifier and the credentials file and nothing else: the project it
    asks the provider for comes from the identifier, not from the field
    [GcpProjectID].  Two configurations that agree on the two give the same
    provider state, the same error and the same log. *)
Theorem setup_reads_key_and_credentials (w : World) logger
        (cfg1 cfg2 : ServerConfig) :
  config.GcpPubsubSubscription cfg1 = config.GcpPubsubSubscription cfg2 ->
  config.GcpCredentialsFile cfg1 = config.GcpCredentialsFile cfg2 ->
  (setupPubSubSubscriber w logger cfg1).1.1
  = (setupPubSubSubscriber w logger cfg2).1.1
  /\ (setupPubSubSubscriber w logger cfg1).2
     = (setupPubSubSubscriber w logger cfg2).2
  /\ setupLogged (setupPubSubSubscriber w logger cfg1).1.2
     = setupLogged (setupPubSubSubscriber w logger cfg2).1.2.
Proof.
  intros Hkey Hfile.
  unfold setupPubSubSubscriber, startReceiver, clientOptions.
  rewrite Hkey, Hfile.
  destruct (negb _); [now repeat split |].
  destruct (negb (String.eqb _ _)); cbn [fst snd];
    destruct (pubsub_NewClient _ _ _) as [w' [client | err]];
    now repeat split.
Qed.

(** ** More on the coordinator *)

Lemma onlyLogs_app (t1 t2 : list SetupEffect) :
  onlyLogs t1 -> onlyLogs t2 -> onlyLogs (t1 ++ t2).
Proof. apply Forall_app_2. Qed.

Lemma onlyLogs_no_goroutine (trace : list SetupEffect) :
  onlyLogs trace ->
  List.filter isGoReceiver trace = []
  /\ List.filter isGoTransformer trace = [].
Proof.
  induction 1 as [| e rest [entry ->] _ [IHr IHt]]; [now split |].
  cbn. now split.
Qed.

(** One turn of the loop in full: the server is passed over; or the setup
    call went through, the identifier is new, well formed and now recorded,
    and one receiver runs; or the setup call failed, only log entries were
    written and the map is as before. *)
Lemma subscribe_step (testRun : bool) logger (server : Server)
      (st : SetupState) :
  let key := config.GcpPubsubSubscription (state.Config server) in
  let prefixedLogger :=
    util.WithPrefix logger (config.SectionName (state.Config server)) in
  let idParts := GoStrings.SplitN key slash 4 in
  ((key = "" \/ is_Some (gcpPubSubHandlers st !! key))
   /\ subscribe testRun logger server st = (st, [], None))
  \/ (key <> "" /\ gcpPubSubHandlers st !! key = None
      /\ GoStrings.Count key slash = 3
      /\ exists w' client,
          pubsub_NewClient (world st) (GoStrings.index idParts 1)
            (clientOptions prefixedLogger (state.Config server)).1
          = (w', inl client)
          /\ subscribe testRun logger server st
             = ({| world := w';
                   gcpPubSubHandlers :=
                     <[key := true]> (gcpPubSubHandlers st) |},
                [SetupLog
                   (clientOptions prefixedLogger (state.Config server)).2;
                 GoReceiver (state.Config server) prefixedLogger client
                   (GoStrings.index idParts 3)],
                None))
  \/ (key <> "" /\ gcpPubSubHandlers st !! key = None
      /\ exists w' effects err,
          setupPubSubSubscriber (world st) prefixedLogger (state.Config server)
          = (w', effects, Some err)
          /\ onlyLogs (subscribe testRun logger server st).1.2
          /\ gcpPubSubHandlers (subscribe testRun logger server st).1.1
             = gcpPubSubHandlers st
          /\ (subscribe testRun logger server st).2
             = if testRun then Some err else None).
Proof.
  intros key prefixedLogger idParts. unfold subscribe.
  fold key prefixedLogger.
  destruct (String.eqb_spec key "") as [Hkey | Hkey]; cbn [negb].
  { left. split; [now left | reflexivity]. }
  destruct (gcpPubSubHandlers st !! key) as [b |] eqn:Hlookup.
  { left. split; [right; now exists b | reflexivity]. }
  right.
  destruct (setupPubSubSubscriber_shape (world st) prefixedLogger
              (state.Config server))
    as [[Hbad ->] | [(Hcount & w' & err & Hasked & ->)
                    | (Hcount & w' & client & Hasked & ->)]].
  - right. repeat split; try assumption.
    eexists _, _, _. split; [reflexivity |].
    destruct testRun; cbn [fst snd]; repeat split.
    + constructor.
    + repeat constructor. now eexists.
  - right. repeat split; try assumption.
    eexists _, _, _. split; [reflexivity |].
    destruct testRun; cbn [fst snd]; repeat split;
      repeat constructor; now eexists.
  - left. repeat split; try assumption. now exists w', client.
Qed.

(** X9. [SetupLogSubscriber] starts the transformer before it looks at any
    server, once, and also when it then returns an error; everything it does
    afterwards is a log entry or the start of a receiver. *)
Theorem transformer_started_first_and_once (w : World) opts logger
        (servers : list Server) :
  exists rest,
    (SetupLogSubscriber w opts logger servers).1.2
    = SetupWgAdd 1 :: GoTransformer servers logger :: rest
    /\ Forall (fun e => isGoReceiver e = true
                        \/ exists entry, e = SetupLog entry) rest.
Proof.
  unfold SetupLogSubscriber, after, setupLogTransformer. cbn [fst snd app].
  eexists. split; [reflexivity |].
  generalize (state.TestRun opts) as testRun.
  generalize ({| world := w; gcpPubSubHandlers := ∅ |}) as st.
  induction servers as [| server rest IH]; intros st testRun; [constructor |].
  rewrite subscribeServers_cons.
  assert (Hturn : Forall (fun e => isGoReceiver e = true
                                   \/ exists entry, e = SetupLog entry)
                         (subscribe testRun logger server st).1.2).
  { destruct (subscribe_step testRun logger server st)
      as [[_ ->] | [(_ & _ & _ & w' & client & _ & ->)
                   | (_ & _ & w' & effects & err & _ & Hlogs & _)]].
    - constructor.
    - cbn [fst snd]. apply Forall_cons_2; [right; now eexists |].
      apply Forall_cons_2; [now left | constructor].
    - eapply Forall_impl; [exact Hlogs |]. intros e He. now right. }
  destruct (subscribe testRun logger server st).2; [exact Hturn |].
  unfold after. cbn [fst snd]. apply Forall_app_2; [exact Hturn | apply IH].
Qed.

(** X10. When no server names a subscription, [SetupLogSubscriber] only
    starts the transformer: the provider is not touched, the map stays empty,
    nothing is logged and no error is returned, in a test run as well. *)
Theorem no_subscription_no_receiver (w : World) opts logger
        (servers : list Server) :
  Forall (fun server =>
            config.GcpPubsubSubscription (state.Config server) = "") servers ->
  SetupLogSubscriber w opts logger servers
  = ({| world := w; gcpPubSubHandlers := ∅ |},
     setupLogTransformer servers logger, None).
Proof.
  intros Hempty. unfold SetupLogSubscriber.
  generalize (setupLogTransformer servers logger) as started.
  assert (Hloop : forall st,
             subscribeServers (state.TestRun opts) logger servers st
             = (st, [], None)).
  { induction Hempty as [| server rest Hkey _ IH]; intros st; [reflexivity |].
    cbn [subscribeServers]. unfold subscribe. rewrite Hkey. cbn.
    now rewrite IH. }
  intros started. rewrite Hloop. unfold after. cbn. now rewrite app_nil_r.
Qed.

(** What the loop keeps true of an identifier in the map: it was there at the
    start, or it is the well-formed identifier of one of the servers. *)
Lemma subscribeServers_recorded_origin (testRun : bool) logger
      (servers : list Server) (st : SetupState) (key : string) (b : bool) :
  gcpPubSubHandlers (subscribeServers testRun logger servers st).1.1 !! key
  = Some b ->
  gcpPubSubHandlers st !! key = Some b
  \/ (b = true /\ key <> "" /\ GoStrings.Count key slash = 3
      /\ exists server,
          server ∈ servers
          /\ config.GcpPubsubSubscription (state.Config server) = key).
Proof.
  revert st. induction servers as [| server rest IH]; intros st Hfinal;
    [now left |].
  rewrite subscribeServers_cons in Hfinal.
  assert (Hlater : gcpPubSubHandlers
                     (subscribe testRun logger server st).1.1 !! key = Some b
                   \/ (b = true /\ key <> "" /\ GoStrings.Count key slash = 3
                       /\ exists named,
                           named ∈ rest
                           /\ config.GcpPubsubSubscription (state.Config named)
                              = key)).
  { destruct (subscribe testRun logger server st).2; [now left |].
    unfold after in Hfinal. cbn [fst snd] in Hfinal. exact (IH _ Hfinal). }
  destruct Hlater as [Hturn | (-> & Hkey & Hcount & named & Hin & Hname)].
  - destruct (subscribe_step testRun logger server st)
      as [[_ Hsub] | [(Hkey & _ & Hcount & w' & client & _ & Hsub)
                     | (_ & _ & w' & effects & err & _ & _ & Hmap & _)]].
    + rewrite Hsub in Hturn. now left.
    + rewrite Hsub in Hturn. cbn [fst snd gcpPubSubHandlers] in Hturn.
      destruct (decide (config.GcpPubsubSubscription (state.Config server)
                        = key)) as [Heq | Hne].
      * right. rewrite Heq, lookup_insert_eq in Hturn.
        injection Hturn as <-. rewrite <- Heq.
        repeat split; try assumption.
        exists server. split; [apply list_elem_of_here | reflexivity].
      * left. now rewrite lookup_insert_ne in Hturn.
    + left. now rewrite Hmap in Hturn.
  - right. repeat split; try assumption.
    exists named. split; [now apply list_elem_of_further | assumption].
Qed.

(** X11. Every identifier in the map at the end of [SetupLogSubscriber] is
    recorded with the value [true], is not empty, holds exactly three slashes
    and is the subscription identifier of one of the servers. *)
Theorem recorded_keys_are_well_formed (w : World) opts logger
        (servers : list Server) (key : string) (b : bool) :
  gcpPubSubHandlers (SetupLogSubscriber w opts logger servers).1.1 !! key
  = Some b ->
  b = true /\ key <> "" /\ GoStrings.Count key slash = 3
  /\ exists server,
      server ∈ servers
      /\ config.GcpPubsubSubscription (state.Config server) = key.
Proof.
  unfold SetupLogSubscriber, after. cbn [fst snd]. intros Hfinal.
  apply subscribeServers_recorded_origin in Hfinal as [Hstart | Hnew];
    [| exact Hnew].
  cbn in Hstart. now rewrite lookup_empty in Hstart.
Qed.

(** Each receiver the loop starts comes with one new entry of the map. *)
Lemma subscribeServers_receivers_size (testRun : bool) logger
      (servers : list Server) (st : SetupState) :
  length (List.filter isGoReceiver
            (subscribeServers testRun logger servers st).1.2)
    + size (gcpPubSubHandlers st)
  = size (gcpPubSubHandlers (subscribeServers testRun logger servers st).1.1).
Proof.
  revert st. induction servers as [| server rest IH]; intros st;
    [reflexivity |].
  rewrite subscribeServers_cons.
  assert (Hturn : length (List.filter isGoReceiver
                            (subscribe testRun logger server st).1.2)
                    + size (gcpPubSubHandlers st)
                  = size (gcpPubSubHandlers
                            (subscribe testRun logger server st).1.1)).
  { destruct (subscribe_step testRun logger server st)
      as [[_ ->] | [(_ & Hnew & _ & w' & client & _ & ->)
                   | (_ & _ & w' & effects & err & _ & Hlogs & -> & _)]].
    - reflexivity.
    - cbn [fst snd gcpPubSubHandlers]. now rewrite map_size_insert_None.
    - apply onlyLogs_no_goroutine in Hlogs as [-> _]. reflexivity. }
  destruct (subscribe testRun logger server st).2; [exact Hturn |].
  unfold after. cbn [fst snd].
  rewrite List.filter_app, length_app, <- IH. lia.
Qed.

(** X12. [SetupLogSubscriber] starts as many receivers as there are
    identifiers in its map at the end: one goroutine per recorded
    subscription, whatever the number of servers. *)
Theorem receivers_as_many_as_recorded (w : World) opts logger
        (servers : list Server) :
  length (List.filter isGoReceiver
            (SetupLogSubscriber w opts logger servers).1.2)
  = size (gcpPubSubHandlers (SetupLogSubscriber w opts logger servers).1.1)
  /\ length (List.filter isGoReceiver
               (SetupLogSubscriber w opts logger servers).1.2)
     <= length servers.
Proof.
  unfold SetupLogSubscriber, after, setupLogTransformer.
  cbn [fst snd app List.filter isGoReceiver].
  split.
  - rewrite <- subscribeServers_receivers_size. cbn [gcpPubSubHandlers].
    rewrite map_size_empty. lia.
  - generalize ({| world := w; gcpPubSubHandlers := ∅ |}) as st.
    induction servers as [| server rest IH]; intros st; [reflexivity |].
    rewrite subscribeServers_cons.
    assert (Hturn : length (List.filter isGoReceiver
                              (subscribe (state.TestRun opts) logger server
                                         st).1.2) <= 1).
    { destruct (subscribe_step (state.TestRun opts) logger server st)
        as [[_ ->] | [(_ & _ & _ & w' & client & _ & ->)
                     | (_ & _ & w' & effects & err & _ & Hlogs & _)]].
      - cbn. lia.
      - cbn. lia.
      - apply onlyLogs_no_goroutine in Hlogs as [-> _]. cbn. lia. }
    destruct (subscribe (state.TestRun opts) logger server st).2;
      [cbn [length]; lia |].
    unfold after. cbn [fst snd length].
    rewrite List.filter_app, length_app. specialize (IH
      (subscribe (state.TestRun opts) logger server st).1.1). lia.
Qed.

(** X13. A receiver that [SetupLogSubscriber] starts belongs to one of the
    servers: it has that server's configuration, logs under the server's
    section name, and reads the subscription named by the fourth segment of
    the server's identifier, which holds three slashes. *)
Theorem receiver_belongs_to_a_server (w : World) opts logger
        (servers : list Server) (cfg : ServerConfig) (receiverLogger : util.Logger)
        (client : Client) (subID : string) :
  GoReceiver cfg receiverLogger client subID
    ∈ (SetupLogSubscriber w opts logger servers).1.2 ->
  exists server,
    server ∈ servers
    /\ cfg = state.Config server
    /\ receiverLogger = util.WithPrefix logger (config.SectionName cfg)
    /\ GoStrings.Count (config.GcpPubsubSubscription cfg) slash = 3
    /\ subID
       = GoStrings.index
           (GoStrings.SplitN (config.GcpPubsubSubscription cfg) slash 4) 3.
Proof.
  unfold SetupLogSubscriber, after, setupLogTransformer. cbn [fst snd app].
  intros Hin.
  apply elem_of_cons in Hin as [Hin | Hin]; [discriminate Hin |].
  apply elem_of_cons in Hin as [Hin | Hin]; [discriminate Hin |].
  revert Hin. generalize (state.TestRun opts) as testRun.
  generalize ({| world := w; gcpPubSubHandlers := ∅ |}) as st.
  induction servers as [| server rest IH]; intros st testRun Hin.
  { now apply elem_of_nil in Hin. }
  rewrite subscribeServers_cons in Hin.
  assert (Hcases : GoReceiver cfg receiverLogger client subID
                     ∈ (subscribe testRun logger server st).1.2
                   \/ exists st',
                       GoReceiver cfg receiverLogger client subID
                         ∈ (subscribeServers testRun logger rest st').1.2).
  { destruct (subscribe testRun logger server st).2; [now left |].
    unfold after in Hin. cbn [fst snd] in Hin.
    apply elem_of_app in Hin as [Hin | Hin]; [now left | right; eauto]. }
  destruct Hcases as [Hturn | [st' Hlater]].
  - exists server. split; [apply list_elem_of_here |].
    destruct (subscribe_step testRun logger server st)
      as [[_ Hsub] | [(_ & _ & Hcount & w' & started & _ & Hsub)
                     | (_ & _ & w' & effects & err & _ & Hlogs & _)]].
    + rewrite Hsub in Hturn. now apply elem_of_nil in Hturn.
    + rewrite Hsub in Hturn. cbn [fst snd] in Hturn.
      apply elem_of_cons in Hturn as [Hturn | Hturn]; [discriminate Hturn |].
      apply list_elem_of_singleton in Hturn.
      injection Hturn as -> -> -> ->. now repeat split.
    + unfold onlyLogs in Hlogs. rewrite Forall_forall in Hlogs.
      destruct (Hlogs _ Hturn) as [entry Hentry]. discriminate Hentry.
  - destruct (IH _ _ Hlater) as (named & Hnamed & Hrest).
    exists named. split; [now apply list_elem_of_further | exact Hrest].
Qed.

(** X14. Outside a test run [SetupLogSubscriber] returns no error, whatever
    the servers are and whatever the provider does. *)
Theorem normal_run_returns_no_error (w : World) opts logger
        (servers : list Server) :
  state.TestRun opts = false ->
  (SetupLogSubscriber w opts logger servers).2 = None.
Proof.
  intros Hmode. unfold SetupLogSubscriber, after. cbn [snd].
  rewrite Hmode. apply subscribeServers_normal.
Qed.

(** An error of the loop is the error of a setup call for one of the
    servers, made when all servers before it had their turn without one. *)
Lemma subscribeServers_error_origin (testRun : bool) logger
      (servers : list Server) (st : SetupState) (err : string) :
  (subscribeServers testRun logger servers st).2 = Some err ->
  testRun = true
  /\ exists before server rest,
      servers = before ++ server :: rest
      /\ (subscribeServers testRun logger before st).2 = None
      /\ (setupPubSubSubscriber
            (world (subscribeServers testRun logger before st).1.1)
            (util.WithPrefix logger (config.SectionName (state.Config server)))
            (state.Config server)).2 = Some err
      /\ subscribeServers testRun logger servers st
         = subscribeServers testRun logger (before ++ [server]) st.
Proof.
  intros Herr. split.
  { destruct testRun; [reflexivity |].
    now rewrite subscribeServers_normal in Herr. }
  revert st Herr. induction servers as [| server rest IH]; intros st Herr;
    [discriminate Herr |].
  rewrite subscribeServers_cons in Herr.
  destruct (subscribe testRun logger server st).2 as [failed |] eqn:Hturn.
  - exists [], server, rest. cbn [app]. repeat split.
    + destruct (subscribe_step testRun logger server st)
        as [[_ Hsub] | [(_ & _ & _ & w' & client & _ & Hsub)
                       | (_ & _ & w' & effects & err' & Hsetup & _ & _ & Hres)]].
      * rewrite Hsub in Hturn. discriminate Hturn.
      * rewrite Hsub in Hturn. discriminate Hturn.
      * cbn [subscribeServers fst world]. rewrite Hsetup. cbn [snd].
        rewrite Hres in Hturn. destruct testRun; congruence.
    + rewrite !subscribeServers_cons, Hturn. reflexivity.
  - unfold after in Herr. cbn [snd] in Herr.
    destruct (IH _ Herr) as (before & named & later & -> & Hnone & Hsetup & Hsame).
    exists (server :: before), named, later. cbn [app].
    rewrite !subscribeServers_cons, Hturn. unfold after. cbn [fst snd].
    repeat split; try assumption. now rewrite Hsame.
Qed.

(** X15. When [SetupLogSubscriber] returns an error it is in a test run, and
    the error is that of the setup call for one of the servers, made after
    the servers before it went through without one; the servers after it
    play no part in the result. *)
Theorem returned_error_is_a_setup_error (w : World) opts logger
        (servers : list Server) (err : string) :
  (SetupLogSubscriber w opts logger servers).2 = Some err ->
  state.TestRun opts = true
  /\ exists before server rest,
      servers = before ++ server :: rest
      /\ (SetupLogSubscriber w opts logger before).2 = None
      /\ (setupPubSubSubscriber
            (world (SetupLogSubscriber w opts logger before).1.1)
            (util.WithPrefix logger (config.SectionName (state.Config server)))
            (state.Config server)).2 = Some err
      /\ (SetupLogSubscriber w opts logger servers).1.1
         = (SetupLogSubscriber w opts logger (before ++ [server])).1.1.
Proof.
  unfold SetupLogSubscriber, after. cbn [fst snd]. intros Herr.
  destruct (subscribeServers_error_origin _ _ _ _ _ Herr)
    as (Hmode & before & server & rest & -> & Hnone & Hsetup & Hsame).
  split; [exact Hmode |].
  exists before, server, rest. repeat split; try assumption.
  now rewrite Hsame.
Qed.

(** X16. Servers that name no subscription or one that is already in the map
    cost nothing: the loop asks the provider for nothing, writes no log
    entry, starts no goroutine and leaves the map as it is. *)
Theorem recorded_servers_are_passed_over (testRun : bool) logger
        (servers : list Server) (st : SetupState) :
  Forall (fun server =>
            config.GcpPubsubSubscription (state.Config server) = ""
            \/ is_Some (gcpPubSubHandlers st
                          !! config.GcpPubsubSubscription (state.Config server)))
         servers ->
  subscribeServers testRun logger servers st = (st, [], None).
Proof.
  induction 1 as [| server rest Hserver _ IH]; [reflexivity |].
  cbn [subscribeServers]. unfold subscribe.
  destruct Hserver as [-> | [b ->]].
  - cbn. now rewrite IH.
  - destruct (negb _); now rewrite IH.
Qed.

(** ** More on the transformer *)

Lemma transformerLogged_app (t1 t2 : list TransformerEffect) :
  transformerLogged (t1 ++ t2) = transformerLogged t1 ++ transformerLogged t2.
Proof. apply omap_app. Qed.

Lemma transformerLogged_route (servers : list Server) in_ logLine :
  transformerLogged (route servers in_ logLine) = [].
Proof.
  rewrite route_spec.
  induction (routed logLine <$> filter (sameOrigin in_) servers)
    as [| item items IH]; [reflexivity | exact IH].
Qed.

(** X17. The transformer leaves its loop at the first cancellation or closed
    channel it meets: the records received before are transformed in the
    order received, [wg.Done()] is its last step, and what the channel holds
    afterwards is not read.  Until then it is in the loop and has not called
    [wg.Done()]. *)
Theorem transformer_stops_at_cancel_or_close logger (servers : list Server)
        (cutoff : GoTime.Time) (before : list LogStreamItem)
        (stop : ChanEvent) (rest : list ChanEvent) :
  stop = CtxDone \/ stop = ChanClosed ->
  transformLoop logger servers cutoff ((Recv <$> before) ++ stop :: rest)
  = (flat_map (transformItem logger servers cutoff) before
       ++ [TransformerWgDone],
     Exited)
  /\ transformLoop logger servers cutoff (Recv <$> before)
     = (flat_map (transformItem logger servers cutoff) before, Running).
Proof.
  intros Hstop. split; [| apply transformLoop_Recv].
  rewrite transformLoop_app. now destruct Hstop as [-> | ->].
Qed.


(** X19. The transformer writes to the log only for a record the line parser
    rejects: a record dropped as stale and a record for which no server is
    configured leave no trace at all. *)
Theorem transformer_logs_only_unparsed logger (servers : list Server)
        (cutoff : GoTime.Time) (in_ : LogStreamItem) :
  transformerLogged (transformItem logger servers cutoff in_)
  = if (ParseLogLineWithPrefix "" (Content in_ +:+ newline)).2 then []
    else [util.PrintError logger
            ("Can't parse log line: " +:+ dquote +:+ Content in_ +:+ dquote)].
Proof.
  unfold transformItem.
  destruct (ParseLogLineWithPrefix "" (Content in_ +:+ newline))
    as [logLine [|]]; cbn [negb snd]; [| reflexivity].
  destruct (negb _ && _); [reflexivity | apply transformerLogged_route].
Qed.

(** X20. Every item on the output channel stands for a record that was
    received, parsed and not stale, and for a configured server with the
    record's (project, instance) pair: it has that server's identifier, and
    its line is what the line parser returned with the record's timestamp in
    place of the parser's. *)
Theorem transformer_emits_only_for_matching_servers (now : GoTime.Time) logger
        (servers : list Server) (events : list ChanEvent)
        (r : ParsedLogStreamItem) :
  r ∈ emitted (transformer now logger servers events).1 ->
  exists in_ server logLine,
    Recv in_ ∈ events
    /\ server ∈ servers
    /\ GcpProjectID in_ = config.GcpProjectID (state.Config server)
    /\ GcpCloudSQLInstanceID in_
       = config.GcpCloudSQLInstanceID (state.Config server)
    /\ ParseLogLineWithPrefix "" (Content in_ +:+ newline) = (logLine, true)
    /\ (GoTime.IsZero (OccurredAt in_) = true
        \/ GoTime.Before (OccurredAt in_)
             (GoTime.Add now (-1 * GoTime.Minute)%Z) = false)
    /\ state.Identifier r = config.Identifier (state.Config server)
    /\ state.LogLine_ r
       = {| state.OccurredAt := OccurredAt in_;
            state.fields := state.fields logLine |}.
Proof.
  unfold transformer. intros Hr.
  apply transformLoop_emitted_elem in Hr as (in_ & Hin & Hr).
  pose proof Hr as Hfrom.
  apply transformItem_emitted_elem in Hfrom
    as (logLine & server & Hparse & Hserver & Hsame & ->).
  exists in_, server, logLine.
  injection Hsame as Hproject Hinstance.
  repeat split; try assumption.
  destruct (GoTime.IsZero (OccurredAt in_)) eqn:Hzero; [now left | right].
  destruct (GoTime.Before (OccurredAt in_) _) eqn:Hbefore; [| reflexivity].
  rewrite (transformItem_stale _ _ _ _ _ Hparse Hzero Hbefore) in Hr.
  now apply elem_of_nil in Hr.
Qed.

(** X21. A record puts at most one item per configured server on the output
    channel, so [n] records put at most [n] times the number of servers. *)
Theorem transformer_output_is_bounded (now : GoTime.Time) logger
        (servers : list Server) (items : list LogStreamItem) :
  length (emitted (transformer now logger servers (Recv <$> items)).1)
  <= length items * length servers.
Proof.
  unfold transformer. rewrite transformLoop_Recv. cbn [fst].
  set (cutoff := GoTime.Add now (-1 * GoTime.Minute)%Z).
  assert (Hitem : forall in_,
             length (emitted (transformItem logger servers cutoff in_))
             <= length servers).
  { intros in_. unfold transformItem.
    destruct (ParseLogLineWithPrefix "" (Content in_ +:+ newline))
      as [logLine [|]]; cbn [negb]; [| cbn; lia].
    destruct (negb _ && _); [cbn; lia |].
    rewrite route_spec, emitted_Emit, length_fmap. apply length_filter. }
  induction items as [| in_ rest IH]; [reflexivity |].
  cbn [flat_map length]. rewrite emitted_app, length_app.
  specialize (Hitem in_). lia.
Qed.


(** ** More on the string and time routines *)

Lemma length_append (p q : string) :
  String.length (p +:+ q) = String.length p + String.length q.
Proof.
  induction p as [| c p IH]; [reflexivity |].
  change (String c p +:+ q) with (String c (p +:+ q)). cbn. now rewrite IH.
Qed.

Lemma substring_whole (s : string) : substring 0 (String.length s) s = s.
Proof. induction s as [| c s IH]; [reflexivity |]. cbn. now rewrite IH. Qed.

Lemma substring_skip (p q : string) :
  substring (String.length p) (String.length q) (p +:+ q) = q.
Proof.
  induction p as [| c p IH]; [apply substring_whole |].
  change (String c p +:+ q) with (String c (p +:+ q)). exact IH.
Qed.

(** A string is its first [n] bytes followed by the rest. *)
Lemma substring_split (s : string) (n : nat) :
  n <= String.length s ->
  s = substring 0 n s +:+ substring n (String.length s - n) s.
Proof.
  revert n. induction s as [| c s IH]; intros [| n] Hn; cbn in Hn; try lia.
  - reflexivity.
  - cbn [substring String.length Nat.sub].
    change (EmptyString +:+ ?x) with x.
    now rewrite substring_whole.
  - cbn [substring String.length Nat.sub].
    change (String c ?a +:+ ?b) with (String c (a +:+ b)).
    f_equal. apply IH. lia.
Qed.

(** X23. [HasSuffix] holds exactly of the strings that end in the suffix: the
    callback lets a message through when its log name is some text followed
    by [postgres.log], the empty text included. *)
Theorem HasSuffix_iff (s suffix : string) :
  GoStrings.HasSuffix s suffix = true <-> exists p, s = p +:+ suffix.
Proof.
  unfold GoStrings.HasSuffix. rewrite andb_true_iff, Nat.leb_le, String.eqb_eq.
  split.
  - intros [Hlen Hsub].
    exists (substring 0 (String.length s - String.length suffix) s).
    pose proof (substring_split s (String.length s - String.length suffix)
                  ltac:(lia)) as Hsplit.
    replace (String.length s - (String.length s - String.length suffix))
      with (String.length suffix) in Hsplit by lia.
    now rewrite Hsub in Hsplit.
  - intros [p ->]. rewrite length_append. split; [lia |].
    replace (String.length p + String.length suffix - String.length suffix)
      with (String.length p) by lia.
    apply substring_skip.
Qed.

(** What [cut] returns. *)
Lemma cut_spec (s : string) (sep : ascii) :
  match GoStrings.cut s sep with
  | Some (a, b) =>
      s = a +:+ String sep b /\ GoStrings.Count a sep = 0
      /\ GoStrings.Count s sep = S (GoStrings.Count b sep)
  | None => GoStrings.Count s sep = 0
  end.
Proof.
  induction s as [| c s IH]; [reflexivity |]. cbn.
  destruct (Ascii.eqb_spec c sep) as [-> | Hc].
  - now repeat split.
  - destruct (GoStrings.cut s sep) as [[a b] |].
    + destruct IH as (-> & Ha & Hs). cbn.
      destruct (Ascii.eqb_spec c sep); [contradiction |].
      now repeat split.
    + exact IH.
Qed.

Lemma SplitN_more (n : nat) (s : string) (sep : ascii) :
  GoStrings.SplitN s sep (S (S n))
  = match GoStrings.cut s sep with
    | Some (a, b) => a :: GoStrings.SplitN b sep (S n)
    | None => [s]
    end.
Proof. reflexivity. Qed.

(** The pieces of [SplitN]: how many there are, and what they add up to. *)
Lemma SplitN_pieces (n : nat) (s : string) (sep : ascii) :
  length (GoStrings.SplitN s sep (S n))
  = Nat.min (S n) (S (GoStrings.Count s sep))
  /\ Join (GoStrings.SplitN s sep (S n)) sep = s.
Proof.
  revert s. induction n as [| n IH]; intros s.
  - split; [cbn; lia | reflexivity].
  - rewrite SplitN_more.
    pose proof (cut_spec s sep) as Hcut.
    destruct (GoStrings.cut s sep) as [[a b] |].
    + destruct Hcut as (-> & Ha & Hs). destruct (IH b) as [Hlen Hjoin].
      split.
      * cbn [length]. rewrite Hlen, Hs. lia.
      * cbn [Join].
        destruct (GoStrings.SplitN b sep (S n)) as [| x rest] eqn:Hsplit;
          [cbn in Hlen; lia |].
        now rewrite Hjoin.
    + rewrite Hcut. split; [cbn; lia | reflexivity].
Qed.

(** X24. [SplitN] loses nothing: for a positive [n] the pieces joined by the
    separator are the string again, and there are as many pieces as the
    string has separators plus one, but at most [n]. *)
Theorem SplitN_joins_back (n : nat) (s : string) (sep : ascii) :
  0 < n ->
  Join (GoStrings.SplitN s sep n) sep = s
  /\ length (GoStrings.SplitN s sep n)
     = Nat.min n (GoStrings.Count s sep + 1).
Proof.
  intros Hn. destruct n as [| n]; [lia |].
  destruct (SplitN_pieces n s sep) as [Hlen Hjoin].
  split; [exact Hjoin |]. rewrite Hlen. lia.
Qed.

(** X25. The guards on the number of slashes are what keeps the index
    expressions in range: [idParts] has the four entries that [idParts[3]]
    needs exactly when the identifier holds at least three slashes, and
    [parts] has the two entries that [parts[1]] needs exactly when the label
    holds at least one. *)
Theorem guards_keep_indices_in_range (s : string) :
  (length (GoStrings.SplitN s slash 4) = 4 <-> 3 <= GoStrings.Count s slash)
  /\ (length (GoStrings.SplitN s slash 2) = 2 <-> 1 <= GoStrings.Count s slash).
Proof.
  destruct (SplitN_pieces 3 s slash) as [Hfour _].
  destruct (SplitN_pieces 1 s slash) as [Htwo _].
  rewrite Hfour, Htwo. lia.
Qed.

(** X26. [Add] moves the instant by the duration, forward or backward, and
    keeps the nanoseconds within the second. *)
Theorem Add_moves_the_instant (t : GoTime.Time) (d : GoTime.Duration) :
  GoTime.wf t ->
  GoTime.wf (GoTime.Add t d)
  /\ GoTime.nanos (GoTime.Add t d) = (GoTime.nanos t + d)%Z.
Proof.
  unfold GoTime.wf, GoTime.Add, GoTime.nanos. intros Ht.
  pose proof (Z.quot_rem' d 1000000000) as Hd.
  assert (Hrem : (-1000000000 < Z.rem d 1000000000 < 1000000000)%Z).
  { pose proof (Z.rem_bound_abs d 1000000000 ltac:(lia)). lia. }
  destruct (Z.leb_spec 1000000000 (GoTime.nsec t + Z.rem d 1000000000));
    [cbn [GoTime.sec GoTime.nsec]; lia |].
  destruct (Z.ltb_spec (GoTime.nsec t + Z.rem d 1000000000) 0);
    cbn [GoTime.sec GoTime.nsec]; lia.
Qed.

(** X27. [Before] is the strict order of instants, and [IsZero] holds of the
    zero instant only: a record is taken as undated only when its timestamp
    is January 1 of the year 1, 00:00:00.0. *)
Theorem Before_orders_instants (t u : GoTime.Time) :
  GoTime.wf t -> GoTime.wf u ->
  (GoTime.Before t u = true <-> (GoTime.nanos t < GoTime.nanos u)%Z)
  /\ (GoTime.IsZero t = true <-> GoTime.nanos t = 0%Z).
Proof.
  unfold GoTime.wf, GoTime.Before, GoTime.IsZero, GoTime.nanos.
  intros Ht Hu.
  rewrite orb_true_iff, !andb_true_iff, !Z.ltb_lt, !Z.eqb_eq.
  split; lia.
Qed.

End google_cloudsql.

Arguments setupPubSubSubscriber {_ _ _} _ _ _ _.
Arguments startReceiver {_ _ _} _ _ _ _ _ _.
Arguments subscribe {_ _ _} _ _ _ _ _.
Arguments subscribeServers {_ _ _} _ _ _ _ _.
Arguments SetupLogSubscriber {_ _ _} _ _ _ _ _.
Arguments receiversFor {_ _} _ _.
Arguments GoReceiver {_ _} _ _ _ _.
Arguments SetupLog {_ _} _.
Arguments world {_} _.
Arguments gcpPubSubHandlers {_} _.
Arguments Build_SetupState {_} _ _.
Arguments route {_ _} _ _ _.
Arguments transformItem {_ _} _ _ _ _ _.
Arguments transformLoop {_ _} _ _ _ _ _.
Arguments transformer {_ _} _ _ _ _ _.
Arguments emitted {_ _} _.
Arguments routed {_ _} _ _.
Arguments sameOrigin {_} _ _.
Arguments TransformerLog {_ _} _.
Arguments Emit {_ _} _.
Arguments isGoReceiver {_ _} _.
Arguments setupLogTransformer {_ _} _ _.

(** ** The theorems at work on the small deployment *)


Lemma transformer_broadcasts_witness :
  emitted
    (transformer Scenario.parseLine Scenario.halfAMinuteLater Scenario.logger
       Scenario.servers [Recv Scenario.ready; CtxDone]).1
  = [routed (Scenario.readyAt Scenario.noon) Scenario.primary;
     routed (Scenario.readyAt Scenario.noon) Scenario.mirror].
Proof.
  exact (proj2 (proj2
           (transformer_broadcasts _ _
              Scenario.parseLine Scenario.halfAMinuteLater Scenario.logger
              Scenario.servers [] Scenario.ready [CtxDone]
              Scenario.parsedReady eq_refl (or_intror eq_refl)))).
Defined.

Lemma transformer_drops_stale_witness :
  emitted
    (transformer Scenario.parseLine Scenario.tenMinutesLater Scenario.logger
       Scenario.servers [Recv Scenario.ready; CtxDone]).1
  = [].
Proof.
  refine (proj2
            (transformer_drops_stale _ _
               Scenario.parseLine Scenario.tenMinutesLater Scenario.logger
               Scenario.servers [] Scenario.ready [CtxDone] _ _ eq_refl
               eq_refl)).
  - unfold GoTime.wf. cbn. lia.
  - unfold GoTime.wf. cbn. lia.
Defined.

Lemma transformer_keeps_unknown_time_witness :
  emitted
    (transformItem Scenario.parseLine Scenario.logger Scenario.servers
       Scenario.tenMinutesLater Scenario.undated)
  = [routed (Scenario.readyAt GoTime.zero) Scenario.primary;
     routed (Scenario.readyAt GoTime.zero) Scenario.mirror].
Proof.
  exact (proj2
           (transformer_keeps_unknown_time _ _
              Scenario.parseLine Scenario.logger Scenario.servers
              Scenario.tenMinutesLater Scenario.undated Scenario.parsedReady
              eq_refl eq_refl)).
Defined.

Lemma transformer_skips_unparsed_witness :
  transformLoop Scenario.parseLine Scenario.logger Scenario.servers
    Scenario.noon [Recv Scenario.blank; Recv Scenario.ready; CtxDone]
  = (TransformerLog
       (util.PrintError Scenario.logger
          ("Can't parse log line: " +:+ dquote +:+ dquote))
       :: [Emit (routed (Scenario.readyAt Scenario.noon) Scenario.primary);
           Emit (routed (Scenario.readyAt Scenario.noon) Scenario.mirror);
           TransformerWgDone _ _],
     Exited).
Proof.
  exact (proj2 (proj2
           (transformer_skips_unparsed _ _
              Scenario.parseLine Scenario.logger Scenario.servers
              Scenario.noon Scenario.blank
              {| state.OccurredAt := GoTime.mkTime 7 7;
                 state.fields := newline |}
              [Recv Scenario.ready; CtxDone] eq_refl))).
Defined.

Lemma occurrence_time_from_message_witness :
  exists adapterLogger data msg in_ logLine,
    Scenario.decode data = inl msg
    /\ Send in_ ∈ onMessage Scenario.decode Scenario.parseTime
                    adapterLogger data
    /\ Recv in_ ∈ [Recv Scenario.ready]
    /\ Scenario.parseLine "" (TextPayload msg +:+ newline) = (logLine, true)
    /\ state.LogLine_ (routed (Scenario.readyAt Scenario.noon) Scenario.primary)
       = {| state.OccurredAt :=
              match Scenario.parseTime GoTime.RFC3339Nano (Timestamp msg) with
              | Some t => t
              | None => GoTime.zero
              end;
            state.fields := state.fields logLine |}.
Proof.
  apply (occurrence_time_from_message _ _
           Scenario.parseLine Scenario.decode Scenario.parseTime
           Scenario.halfAMinuteLater Scenario.logger Scenario.servers
           [Recv Scenario.ready]
           (routed (Scenario.readyAt Scenario.noon) Scenario.primary)).
  - intros in_ Hin. apply list_elem_of_singleton in Hin.
    injection Hin as ->.
    exists Scenario.logger, "LOG:  ready".
    apply list_elem_of_further, list_elem_of_here.
  - apply list_elem_of_here.
Defined.

Lemma receiver_retries_until_cancelled_witness :
  (receiver Scenario.decode Scenario.parseTime Scenario.logger
     [Scenario.dropped; Scenario.refused]).2 = Running
  /\ (receiver Scenario.decode Scenario.parseTime Scenario.logger
        ([Scenario.dropped; Scenario.refused] ++ [Scenario.cancelled])).2
     = Exited.
Proof.
  assert (Hfail : Forall (fun o => exists msg,
                              returned o = Some (context.OtherError msg))
                         [Scenario.dropped; Scenario.refused]).
  { repeat constructor; eexists; reflexivity. }
  destruct (receiver_retries_until_cancelled Scenario.decode
              Scenario.parseTime Scenario.logger _ Hfail)
    as (Hrunning & Hexit & _).
  split.
  - rewrite Hrunning. reflexivity.
  - rewrite (Hexit Scenario.cancelled [] (or_intror eq_refl)). reflexivity.
Defined.

Lemma one_receiver_per_subscription_witness :
  length
    (receiversFor "projects/p1/subscriptions/logs"
       (SetupLogSubscriber Scenario.newClient 0 Scenario.normalRun
          Scenario.logger Scenario.servers).1.2)
  = 1.
Proof.
  apply (one_receiver_per_subscription _ _ _ Scenario.newClient 0
           Scenario.normalRun Scenario.logger Scenario.servers
           "projects/p1/subscriptions/logs").
  - discriminate.
  - exists Scenario.primary. split; [apply list_elem_of_here | reflexivity].
  - reflexivity.
  - intros w' logger' cfg Hkey. unfold setupPubSubSubscriber.
    rewrite Hkey. cbn [GoStrings.Count Ascii.eqb Bool.eqb Nat.add Nat.eqb negb].
    unfold startReceiver.
    destruct (clientOptions _ logger' cfg) as [opts said]. reflexivity.
Defined.

Lemma setup_failure_policy_witness :
  (SetupLogSubscriber Scenario.newClient 0 Scenario.testRun Scenario.logger
     ([Scenario.primary] ++ Scenario.misnamed :: [Scenario.replica])).2
  = Some (unsupportedFormat "logs")
  /\ (SetupLogSubscriber Scenario.newClient 0 Scenario.normalRun
        Scenario.logger
        ([Scenario.primary] ++ Scenario.misnamed :: [Scenario.replica])).2
     = None.
Proof.
  split.
  - pose proof
      (setup_failure_policy _ _ _ Scenario.newClient 0 Scenario.testRun
         Scenario.logger [Scenario.primary] Scenario.misnamed
         [Scenario.replica]
         (subscribeServers Scenario.newClient true Scenario.logger
            [Scenario.primary]
            {| world := 0; gcpPubSubHandlers := ∅ |}).1.1
         (subscribeServers Scenario.newClient true Scenario.logger
            [Scenario.primary]
            {| world := 0; gcpPubSubHandlers := ∅ |}).1.2
         1 [] (unsupportedFormat "logs")
         eq_refl ltac:(discriminate) eq_refl eq_refl) as [Hstrict _].
    rewrite (Hstrict eq_refl). reflexivity.
  - pose proof
      (setup_failure_policy _ _ _ Scenario.newClient 0 Scenario.normalRun
         Scenario.logger [Scenario.primary] Scenario.misnamed
         [Scenario.replica]
         (subscribeServers Scenario.newClient false Scenario.logger
            [Scenario.primary]
            {| world := 0; gcpPubSubHandlers := ∅ |}).1.1
         (subscribeServers Scenario.newClient false Scenario.logger
            [Scenario.primary]
            {| world := 0; gcpPubSubHandlers := ∅ |}).1.2
         1 [] (unsupportedFormat "logs")
         eq_refl ltac:(discriminate) eq_refl eq_refl) as [_ Hnormal].
    exact (proj2 (Hnormal eq_refl)).
Defined.

Lemma failed_setup_is_not_recorded_witness :
  subscribe Scenario.flakyClient false Scenario.logger Scenario.mirror
    {| world := 1; gcpPubSubHandlers := ∅ |}
  = ({| world := 2;
        gcpPubSubHandlers :=
          <["projects/p1/subscriptions/logs" := true]> ∅ |},
     [SetupLog
        (util.PrintVerbose (util.WithPrefix Scenario.logger "mirror")
           noCredentialsFile);
      GoReceiver (state.Config Scenario.mirror)
        (util.WithPrefix Scenario.logger "mirror") "p1" "logs"],
     None).
Proof.
  pose proof
    (failed_setup_is_not_recorded _ _ _ Scenario.flakyClient 0
       Scenario.normalRun Scenario.logger [] Scenario.primary []
       Scenario.mirror [Scenario.replica] 1
       [SetupLog
          (util.PrintVerbose (util.WithPrefix Scenario.logger "primary")
             noCredentialsFile)]
       "Failed to create Google PubSub client: dial failed"
       eq_refl ltac:(discriminate) eq_refl eq_refl eq_refl
       (Forall_nil_2 _))
    as (_ & _ & Hturn & _).
  exact Hturn.
Defined.

(** C7 does not hold as worded: an identifier of four segments that is no
    subscription path passes the check, and a receiver is started for its
    second and fourth segments. *)
Lemma setup_accepts_any_four_segments :
  ~ fullyQualified "a/b/c/d"
  /\ setupPubSubSubscriber Scenario.newClient 0 Scenario.logger
       (state.Config Scenario.fourSegments)
     = (1,
        [SetupLog
           (util.PrintVerbose Scenario.logger
              noCredentialsFile);
         GoReceiver (state.Config Scenario.fourSegments) Scenario.logger
           "b" "d"],
        None).
Proof.
  split; [| reflexivity].
  intros (project & name & _ & _ & Hkey). discriminate Hkey.
Qed.

Lemma setup_checks_slash_count_witness :
  setupPubSubSubscriber Scenario.newClient 0 Scenario.logger
    (state.Config Scenario.primary)
  = startReceiver Scenario.newClient 0 Scenario.logger
      (state.Config Scenario.primary) "p1" "logs"
  /\ setupPubSubSubscriber Scenario.newClient 0 Scenario.logger
       (state.Config Scenario.misnamed)
     = (0, [], Some (unsupportedFormat "logs")).
Proof.
  split.
  - apply (setup_checks_slash_count _ _ _ Scenario.newClient 0 Scenario.logger
             (state.Config Scenario.primary)); reflexivity.
  - apply (setup_checks_slash_count _ _ _ Scenario.newClient 0 Scenario.logger
             (state.Config Scenario.misnamed)). discriminate.
Defined.

(** ** The functions run on the small deployment *)

Example Count_path :
  GoStrings.Count "projects/p1/subscriptions/logs" slash = 3.
Proof. reflexivity. Qed.

Example SplitN_path :
  GoStrings.SplitN "projects/p1/subscriptions/logs" slash 4
  = ["projects"; "p1"; "subscriptions"; "logs"].
Proof. reflexivity. Qed.

Example SplitN_keeps_remainder :
  GoStrings.SplitN "a/b/c/d/e" slash 4 = ["a"; "b"; "c"; "d/e"].
Proof. reflexivity. Qed.

Example HasSuffix_log_name :
  GoStrings.HasSuffix
    "projects/p1/logs/cloudsql.googleapis.com%2Fpostgres.log" "postgres.log"
  = true
  /\ GoStrings.HasSuffix "postgres.log.1" "postgres.log" = false
  /\ GoStrings.HasSuffix "log" "postgres.log" = false.
Proof. repeat split; reflexivity. Qed.

Example cutoff_of_half_a_minute_later :
  GoTime.Add Scenario.halfAMinuteLater (-1 * GoTime.Minute)%Z
  = GoTime.mkTime 63850161570 0.
Proof. reflexivity. Qed.

Example Add_borrows_a_second :
  GoTime.Add (GoTime.mkTime 10 5) (-6)%Z = GoTime.mkTime 9 999999999.
Proof. reflexivity. Qed.

Example onMessage_ready :
  onMessage Scenario.decode Scenario.parseTime Scenario.logger "LOG:  ready"
  = [Ack; Send Scenario.ready].
Proof. reflexivity. Qed.

Example onMessage_undated :
  onMessage Scenario.decode Scenario.parseTime Scenario.logger "undated"
  = [Ack;
     Send {| GcpProjectID := "p1";
             GcpCloudSQLInstanceID := "i1";
             OccurredAt := GoTime.zero;
             Content := "undated" |}].
Proof. reflexivity. Qed.

Example onMessage_garbled :
  onMessage Scenario.decode Scenario.parseTime Scenario.logger "garbled"
  = [Ack;
     Log (util.PrintError Scenario.logger
            "Error parsing JSON: unexpected end of JSON input")].
Proof. reflexivity. Qed.

Example receiver_cancelled_after_a_failure :
  receiver Scenario.decode Scenario.parseTime Scenario.logger
    [Scenario.refused; Scenario.cancelled]
  = ([WgAdd 1;
      Log (util.PrintVerbose Scenario.logger
             "Initializing Google Pub/Sub handler");
      Log (util.PrintError Scenario.logger
             "Failed to receive from Google PubSub, retrying in 1 minute: permission denied");
      Sleep 60000000000%Z;
      Log (util.PrintVerbose Scenario.logger
             "Initializing Google Pub/Sub handler");
      WgDone],
     Exited).
Proof. reflexivity. Qed.

Example normal_run_of_the_deployment :
  let run :=
    SetupLogSubscriber Scenario.newClient 0 Scenario.normalRun Scenario.logger
      [Scenario.primary; Scenario.misnamed; Scenario.unreachable;
       Scenario.mirror; Scenario.replica] in
  run.2 = None
  /\ world run.1.1 = 2
  /\ gcpPubSubHandlers run.1.1
     = <["projects/p1/subscriptions/logs" := true]> ∅
  /\ List.filter
       (fun e => match e with GoReceiver _ _ _ _ => true | _ => false end)
       run.1.2
     = [GoReceiver (state.Config Scenario.primary)
          (util.WithPrefix Scenario.logger "primary") "p1" "logs"].
Proof. repeat split; reflexivity. Qed.

Example test_run_of_the_deployment :
  let run :=
    SetupLogSubscriber Scenario.newClient 0 Scenario.testRun Scenario.logger
      [Scenario.primary; Scenario.unreachable; Scenario.replica] in
  run.2 = Some "Failed to create Google PubSub client: dial failed"
  /\ world run.1.1 = 2.
Proof. split; reflexivity. Qed.

Example flaky_provider_is_asked_again :
  let run :=
    SetupLogSubscriber Scenario.flakyClient 0 Scenario.normalRun
      Scenario.logger Scenario.servers in
  world run.1.1 = 2
  /\ receiversFor "projects/p1/subscriptions/logs" run.1.2
     = [GoReceiver (state.Config Scenario.mirror)
          (util.WithPrefix Scenario.logger "mirror") "p1" "logs"].
Proof. split; reflexivity. Qed.

Example transformer_on_a_closed_channel :
  transformer Scenario.parseLine Scenario.halfAMinuteLater Scenario.logger
    [Scenario.replica] [Recv Scenario.ready; ChanClosed; Recv Scenario.ready]
  = ([TransformerWgDone _ _], Exited).
Proof. reflexivity. Qed.

(** ** The further properties at work on the small deployment *)


Lemma setup_asks_provider_once_witness :
  (setupPubSubSubscriber Scenario.newClient 0 Scenario.logger
     (state.Config Scenario.primary)).1.1 = 1
  /\ (setupPubSubSubscriber Scenario.newClient 0 Scenario.logger
        (state.Config Scenario.unreachable)).2
     = Some "Failed to create Google PubSub client: dial failed".
Proof.
  split.
  - exact (proj1 (setup_asks_provider_once _ _ _ Scenario.newClient 0
                    Scenario.logger (state.Config Scenario.primary) eq_refl)).
  - destruct (setup_asks_provider_once _ _ _ Scenario.newClient 0
                Scenario.logger (state.Config Scenario.unreachable) eq_refl)
      as [_ Hfailed].
    exact (proj1 Hfailed).
Defined.

Lemma setup_reads_key_and_credentials_witness :
  (setupPubSubSubscriber Scenario.newClient 0 Scenario.logger
     (state.Config Scenario.primary)).2
  = (setupPubSubSubscriber Scenario.newClient 0 Scenario.logger
       (state.Config Scenario.replica)).2.
Proof.
  exact (proj1 (proj2
           (setup_reads_key_and_credentials _ _ _ Scenario.newClient 0
              Scenario.logger (state.Config Scenario.primary)
              (state.Config Scenario.replica) eq_refl eq_refl))).
Defined.

Lemma no_subscription_no_receiver_witness :
  SetupLogSubscriber Scenario.newClient 0 Scenario.testRun Scenario.logger
    [Scenario.local; Scenario.local]
  = ({| world := 0; gcpPubSubHandlers := ∅ |},
     setupLogTransformer [Scenario.local; Scenario.local] Scenario.logger,
     None).
Proof.
  apply (no_subscription_no_receiver _ _ _ Scenario.newClient 0
           Scenario.testRun Scenario.logger [Scenario.local; Scenario.local]).
  repeat constructor.
Defined.

Lemma recorded_keys_are_well_formed_witness :
  true = true
  /\ "projects/p1/subscriptions/logs" <> ""
  /\ GoStrings.Count "projects/p1/subscriptions/logs" slash = 3
  /\ exists server,
      server ∈ Scenario.servers
      /\ config.GcpPubsubSubscription (state.Config server)
         = "projects/p1/subscriptions/logs".
Proof.
  exact (recorded_keys_are_well_formed _ _ _ Scenario.newClient 0
           Scenario.normalRun Scenario.logger Scenario.servers
           "projects/p1/subscriptions/logs" true eq_refl).
Defined.

Lemma receiver_belongs_to_a_server_witness :
  exists server,
    server ∈ Scenario.servers
    /\ state.Config Scenario.mirror = state.Config server
    /\ util.WithPrefix Scenario.logger "mirror"
       = util.WithPrefix Scenario.logger
           (config.SectionName (state.Config Scenario.mirror))
    /\ GoStrings.Count
         (config.GcpPubsubSubscription (state.Config Scenario.mirror)) slash
       = 3
    /\ "logs"
       = GoStrings.index
           (GoStrings.SplitN
              (config.GcpPubsubSubscription (state.Config Scenario.mirror))
              slash 4) 3.
Proof.
  apply (receiver_belongs_to_a_server _ _ _ Scenario.flakyClient 0
           Scenario.normalRun Scenario.logger Scenario.servers
           (state.Config Scenario.mirror)
           (util.WithPrefix Scenario.logger "mirror") "p1" "logs").
  do 5 apply list_elem_of_further. apply list_elem_of_here.
Defined.

Lemma normal_run_returns_no_error_witness :
  (SetupLogSubscriber Scenario.newClient 0 Scenario.normalRun Scenario.logger
     [Scenario.primary; Scenario.misnamed; Scenario.unreachable]).2
  = None.
Proof.
  exact (normal_run_returns_no_error _ _ _ Scenario.newClient 0
           Scenario.normalRun Scenario.logger
           [Scenario.primary; Scenario.misnamed; Scenario.unreachable]
           eq_refl).
Defined.

Lemma returned_error_is_a_setup_error_witness :
  exists before server rest,
    [Scenario.primary; Scenario.unreachable; Scenario.replica]
    = before ++ server :: rest
    /\ (SetupLogSubscriber Scenario.newClient 0 Scenario.testRun
          Scenario.logger before).2 = None
    /\ (setupPubSubSubscriber Scenario.newClient
          (world (SetupLogSubscriber Scenario.newClient 0 Scenario.testRun
                    Scenario.logger before).1.1)
          (util.WithPrefix Scenario.logger
             (config.SectionName (state.Config server)))
          (state.Config server)).2
       = Some "Failed to create Google PubSub client: dial failed"
    /\ (SetupLogSubscriber Scenario.newClient 0 Scenario.testRun
          Scenario.logger
          [Scenario.primary; Scenario.unreachable; Scenario.replica]).1.1
       = (SetupLogSubscriber Scenario.newClient 0 Scenario.testRun
            Scenario.logger (before ++ [server])).1.1.
Proof.
  exact (proj2
           (returned_error_is_a_setup_error _ _ _ Scenario.newClient 0
              Scenario.testRun Scenario.logger
              [Scenario.primary; Scenario.unreachable; Scenario.replica]
              "Failed to create Google PubSub client: dial failed" eq_refl)).
Defined.

Lemma recorded_servers_are_passed_over_witness :
  subscribeServers Scenario.newClient false Scenario.logger
    [Scenario.mirror; Scenario.local; Scenario.replica]
    {| world := 1;
       gcpPubSubHandlers := <["projects/p1/subscriptions/logs" := true]> ∅ |}
  = ({| world := 1;
        gcpPubSubHandlers :=
          <["projects/p1/subscriptions/logs" := true]> ∅ |},
     [], None).
Proof.
  apply (recorded_servers_are_passed_over _ _ _ Scenario.newClient false
           Scenario.logger [Scenario.mirror; Scenario.local; Scenario.replica]).
  repeat apply Forall_cons_2; try apply Forall_nil_2.
  - right. exists true. reflexivity.
  - left. reflexivity.
  - right. exists true. reflexivity.
Defined.

Lemma transformer_stops_at_cancel_or_close_witness :
  transformLoop Scenario.parseLine Scenario.logger [Scenario.primary]
    Scenario.noon
    ((Recv <$> [Scenario.ready]) ++ ChanClosed :: [Recv Scenario.ready])
  = ([Emit (routed (Scenario.readyAt Scenario.noon) Scenario.primary);
      TransformerWgDone _ _],
     Exited).
Proof.
  exact (proj1
           (transformer_stops_at_cancel_or_close _ _ Scenario.parseLine
              Scenario.logger [Scenario.primary] Scenario.noon
              [Scenario.ready] ChanClosed [Recv Scenario.ready]
              (or_intror eq_refl))).
Defined.


Lemma transformer_emits_only_for_matching_servers_witness :
  exists in_ server logLine,
    Recv in_ ∈ [Recv Scenario.ready; CtxDone]
    /\ server ∈ Scenario.servers
    /\ GcpProjectID in_ = config.GcpProjectID (state.Config server)
    /\ GcpCloudSQLInstanceID in_
       = config.GcpCloudSQLInstanceID (state.Config server)
    /\ Scenario.parseLine "" (Content in_ +:+ newline) = (logLine, true)
    /\ (GoTime.IsZero (OccurredAt in_) = true
        \/ GoTime.Before (OccurredAt in_)
             (GoTime.Add Scenario.halfAMinuteLater (-1 * GoTime.Minute)%Z)
           = false)
    /\ state.Identifier
         (routed (Scenario.readyAt Scenario.noon) Scenario.mirror)
       = config.Identifier (state.Config server)
    /\ state.LogLine_
         (routed (Scenario.readyAt Scenario.noon) Scenario.mirror)
       = {| state.OccurredAt := OccurredAt in_;
            state.fields := state.fields logLine |}.
Proof.
  apply (transformer_emits_only_for_matching_servers _ _ Scenario.parseLine
           Scenario.halfAMinuteLater Scenario.logger Scenario.servers
           [Recv Scenario.ready; CtxDone]
           (routed (Scenario.readyAt Scenario.noon) Scenario.mirror)).
  apply list_elem_of_further, list_elem_of_here.
Defined.


Lemma SplitN_joins_back_witness :
  Join (GoStrings.SplitN "a/b/c/d/e" slash 4) slash = "a/b/c/d/e"
  /\ length (GoStrings.SplitN "a/b/c/d/e" slash 4)
     = Nat.min 4 (GoStrings.Count "a/b/c/d/e" slash + 1).
Proof.
  apply (SplitN_joins_back 4 "a/b/c/d/e" slash). lia.
Defined.

Lemma Add_moves_the_instant_witness :
  GoTime.wf (GoTime.Add (GoTime.mkTime 10 5) (-6)%Z)
  /\ GoTime.nanos (GoTime.Add (GoTime.mkTime 10 5) (-6)%Z)
     = (GoTime.nanos (GoTime.mkTime 10 5) + -6)%Z.
Proof.
  apply (Add_moves_the_instant (GoTime.mkTime 10 5) (-6)%Z).
  unfold GoTime.wf. cbn. lia.
Defined.

Lemma Before_orders_instants_witness :
  (GoTime.Before Scenario.noon Scenario.halfAMinuteLater = true
   <-> (GoTime.nanos Scenario.noon < GoTime.nanos Scenario.halfAMinuteLater)%Z)
  /\ (GoTime.IsZero Scenario.noon = true <-> GoTime.nanos Scenario.noon = 0%Z).
Proof.
  apply (Before_orders_instants Scenario.noon Scenario.halfAMinuteLater).
  - unfold GoTime.wf. cbn. lia.
  - unfold GoTime.wf. cbn. lia.
Defined.
